(** * Telegram autoforward bot: session lifecycle and persistence model

    Shallow embedding of [api/index.py] and [models.py].

    - Python [str] values are sequences of Unicode code points: [list N].
    - [datetime] values are seconds on a clock: [Z]; [isoformat()] is an
      injective rendering and is left out. A call reads each clock once.
    - The Telegram client, the clock and the outcome of every
      [db.session.commit()] are inputs of the call that uses them.
    - Every [with app.app_context()] block works on a database session
      of its own, removed when the block ends: [db.session.add] followed
      by a successful [commit] appends the row (filling column defaults
      and the primary key), and a commit that raises persists nothing.
      The object kept in [self.db_session] outlives the block that
      created it; what is left of it afterwards is [SessionObject.t].
    - The thread started by [start_bot] is run up to the call in which it
      blocks, or to its end, before the route answers. *)

From Stdlib Require Import ZArith NArith Ascii.
From Stdlib Require String.
Import String.StringSyntax.
From stdpp Require Import base list sorting gmap.

Local Open Scope Z_scope.

(** ** Python strings *)

Definition codepoint := N.
Definition pystr := list codepoint.

(** A source literal, as code points. *)
Definition py (s : String.string) : pystr :=
  N_of_ascii <$> String.list_ascii_of_string s.
Arguments py s%_string_scope.

(** [bool(s)] for a string. *)
Definition str_truthy (s : pystr) : bool :=
  match s with [] => false | _ :: _ => true end.

(** [bool(o)] for an optional string ([None] and the empty string are false). *)
Definition opt_truthy (o : option pystr) : bool :=
  match o with Some s => str_truthy s | None => false end.

(** [bool(o)] for an optional object whose class defines no truth value. *)
Definition obj_truthy {A} (o : option A) : bool :=
  match o with Some _ => true | None => false end.

(** [bool(l)] for a list. *)
Definition list_truthy {A} (l : list A) : bool :=
  match l with [] => false | _ :: _ => true end.

(** [bool(n)] for an optional integer. *)
Definition int_truthy (o : option Z) : bool :=
  match o with Some n => negb (n =? 0) | None => false end.

(** [o or ''] *)
Definition or_empty (o : option pystr) : pystr :=
  match o with Some (c :: s) => c :: s | _ => [] end.

Fixpoint starts_with (needle hay : pystr) : bool :=
  match needle, hay with
  | [], _ => true
  | _ :: _, [] => false
  | a :: needle', b :: hay' => N.eqb a b && starts_with needle' hay'
  end.

(** [needle in hay] on strings: substring search. *)
Fixpoint str_in (needle hay : pystr) : bool :=
  starts_with needle hay ||
  match hay with
  | [] => false
  | _ :: hay' => str_in needle hay'
  end.

(** [sep.join(parts)] *)
Fixpoint join (sep : pystr) (parts : list pystr) : pystr :=
  match parts with
  | [] => []
  | [p] => p
  | p :: rest => p ++ sep ++ join sep rest
  end.

(** [str.lower] restricted to the ASCII letters, for the scenarios. *)
Definition ascii_lower_cp (c : codepoint) : codepoint :=
  if (N.leb 65 c && N.leb c 90)%bool then (c + 32)%N else c.
Definition ascii_lower (s : pystr) : pystr := ascii_lower_cp <$> s.

(** The substring relation the spec speaks of. *)
Definition substring (s t : pystr) : Prop := ∃ pre suf, t = pre ++ s ++ suf.

(** ** The keyword filter of [message_handler] (index.py 172-178) *)

Section Filter.
(** [str.lower], the interpreter's full Unicode lowercasing. *)
Variable lower : pystr → pystr.

(** [any(keyword.lower() in message_text.lower() for keyword in keywords)] *)
Definition any_keyword (keywords : list pystr) (message_text : pystr) : bool :=
  existsb (λ keyword, str_in (lower keyword) (lower message_text)) keywords.

(** [should_forward = True; if self.keywords: should_forward = any(...)] *)
Definition should_forward (keywords : list pystr) (message_text : pystr) : bool :=
  match keywords with
  | [] => true
  | _ :: _ => any_keyword keywords message_text
  end.

(** [[kw for kw in self.keywords if kw.lower() in message_text.lower()]] *)
Definition matched_of (keywords : list pystr) (message_text : pystr) : list pystr :=
  List.filter (λ kw, str_in (lower kw) (lower message_text)) keywords.
End Filter.


(** ** The tables of [models.py]

    A column left unset by the constructor is [None] on the Python object
    until the row is inserted; the insert fills the column defaults. *)

Module ForwardedMessage.
Record t := mk {
  id : option nat;
  message_id : Z;
  source_chat : option pystr;
  destination_chat : option pystr;
  message_text : option pystr;
  has_media : bool;
  media_type : option pystr;
  forwarded_at : Z;
  keywords_matched : option pystr }.

Definition with_id (i : nat) (m : t) : t :=
  mk (Some i) (message_id m) (source_chat m) (destination_chat m) (message_text m)
     (has_media m) (media_type m) (forwarded_at m) (keywords_matched m).

(** The ['message_text'] entry of [to_dict]:
    [text[:100] + '...' if text and len(text) > 100 else text] *)
Definition display_text (text : option pystr) : option pystr :=
  match text with
  | Some s =>
      if str_truthy s && (100 <? Z.of_nat (length s))
      then Some (take 100 s ++ py "...")
      else Some s
  | None => None
  end.

Definition to_dict (m : t) : t :=
  mk (id m) (message_id m) (source_chat m) (destination_chat m)
     (display_text (message_text m))
     (has_media m) (media_type m) (forwarded_at m) (keywords_matched m).
End ForwardedMessage.

Module BotSession.
Record t := mk {
  id : option nat;
  session_id : pystr;
  source_chat : option pystr;
  destination_chat : option pystr;
  keywords : option pystr;
  forward_media : bool;
  delay_seconds : Z;
  started_at : Z;
  stopped_at : option Z;
  is_active : bool;
  messages_received : option Z;
  messages_forwarded : option Z;
  last_activity : option Z }.

(** The INSERT: primary key and the column defaults
    ([messages_received], [messages_forwarded]: 0; [last_activity]: utcnow). *)
Definition inserted (i : nat) (utcnow : Z) (s : t) : t :=
  mk (Some i) (session_id s) (source_chat s) (destination_chat s) (keywords s)
     (forward_media s) (delay_seconds s) (started_at s) (stopped_at s) (is_active s)
     (Some (default 0 (messages_received s)))
     (Some (default 0 (messages_forwarded s)))
     (Some (default utcnow (last_activity s))).

(** [s.messages_forwarded = n; s.last_activity = now] *)
Definition forwarded (n now : Z) (s : t) : t :=
  mk (id s) (session_id s) (source_chat s) (destination_chat s) (keywords s)
     (forward_media s) (delay_seconds s) (started_at s) (stopped_at s) (is_active s)
     (messages_received s) (Some n) (Some now).

(** [s.stopped_at = now; s.is_active = False] *)
Definition stopped (now : Z) (s : t) : t :=
  mk (id s) (session_id s) (source_chat s) (destination_chat s) (keywords s)
     (forward_media s) (delay_seconds s) (started_at s) (Some now) false
     (messages_received s) (messages_forwarded s) (last_activity s).
End BotSession.

Module ErrorLog.
Record t := mk {
  id : option nat;
  session_id : option pystr;
  error_type : pystr;
  error_message : pystr;
  stack_trace : option pystr;
  occurred_at : Z;
  resolved : bool }.

Definition with_id (i : nat) (e : t) : t :=
  mk (Some i) (session_id e) (error_type e) (error_message e) (stack_trace e)
     (occurred_at e) (resolved e).
End ErrorLog.

Record Database := mkDatabase {
  forwarded_messages : list ForwardedMessage.t;
  bot_sessions : list BotSession.t;
  error_logs : list ErrorLog.t }.

Definition empty_db : Database := mkDatabase [] [] [].

(** INSERT of one forwarded message (autoincrement key). *)
Definition insert_message (m : ForwardedMessage.t) (d : Database) : Database :=
  mkDatabase
    (forwarded_messages d ++ [ForwardedMessage.with_id (S (length (forwarded_messages d))) m])
    (bot_sessions d) (error_logs d).

Definition insert_error (e : ErrorLog.t) (d : Database) : Database :=
  mkDatabase (forwarded_messages d) (bot_sessions d)
    (error_logs d ++ [ErrorLog.with_id (S (length (error_logs d))) e]).

Definition insert_session (s : BotSession.t) (d : Database) : Database :=
  mkDatabase (forwarded_messages d) (bot_sessions d ++ [s]) (error_logs d).

(** [session_id] is declared [unique=True]. *)
Definition session_id_taken (sid : pystr) (d : Database) : bool :=
  existsb (λ r, bool_decide (BotSession.session_id r = sid)) (bot_sessions d).

(** ** The forwarder object *)

(** A caught [Exception]; [str(e)] is its message. *)
Inductive exn := Exception (msg : pystr).
Definition str_exn (e : exn) : pystr := match e with Exception msg => msg end.

(** The [BotSession] object a forwarder keeps in [self.db_session]
    (index.py 245-257), after the application context that built it
    has ended.

    When the commit raised, the object was never inserted and is
    [Transient]: it has the attributes the constructor set, and the
    columns the constructor left out are [None].

    When the commit went through, it expired every attribute of the
    object, and the end of the block removed the session it belonged to:
    the object is [Detached]. Reading a column of it has to reload the
    row and raises [DetachedInstanceError], whose message names the
    object by its address; assigning a column only sets
    the attribute on the object, which no later session holds, so that
    no UPDATE of its row follows. [row] is the primary key of the row it
    was inserted as, the other two are the attributes assigned since. *)
Module SessionObject.
Inductive t :=
| Transient (obj : BotSession.t)
| Detached (row : nat) (stopped_at : option Z) (is_active : option bool).

(** [o.stopped_at = now; o.is_active = False] *)
Definition stopped (now : Z) (o : t) : t :=
  match o with
  | Transient obj => Transient (BotSession.stopped now obj)
  | Detached row _ _ => Detached row (Some now) (Some false)
  end.
End SessionObject.

(** What is observable of the Telethon client: whether it is connected
    and whether [message_handler] is registered on it. *)
Record TelegramClient := mkClient {
  connected : bool;
  has_handler : bool }.

Module Stats.
Record t := mk {
  messages_received : Z;
  messages_forwarded : Z;
  last_message_time : option Z;
  start_time : option Z;
  errors : list (Z * pystr) }.

Definition received (now : Z) (s : t) : t :=
  mk (messages_received s + 1) (messages_forwarded s) (Some now) (start_time s) (errors s).
Definition forwarded (s : t) : t :=
  mk (messages_received s) (messages_forwarded s + 1) (last_message_time s)
     (start_time s) (errors s).
Definition started (now : Z) (s : t) : t :=
  mk (messages_received s) (messages_forwarded s) (last_message_time s) (Some now) (errors s).
Definition error (now : Z) (msg : pystr) (s : t) : t :=
  mk (messages_received s) (messages_forwarded s) (last_message_time s) (start_time s)
     (errors s ++ [(now, msg)]).
End Stats.

Module TelegramAutoForwarder.
(** [TelegramAutoForwarder]: the attributes set by [__init__]. *)
Record t := mk {
  api_id : option Z;
  api_hash : option pystr;
  phone : option pystr;
  source_chat : option pystr;
  destination_chat : option pystr;
  keywords : list pystr;
  forward_media : bool;
  delay_seconds : Z;
  client : option TelegramClient;
  authenticated : bool;
  running : bool;
  session_id : pystr;
  db_session : option SessionObject.t;
  stats : Stats.t }.

Definition with_client (c : option TelegramClient) (f : t) : t :=
  mk (api_id f) (api_hash f) (phone f) (source_chat f) (destination_chat f) (keywords f)
     (forward_media f) (delay_seconds f) c (authenticated f) (running f)
     (session_id f) (db_session f) (stats f).
Definition with_authenticated (b : bool) (f : t) : t :=
  mk (api_id f) (api_hash f) (phone f) (source_chat f) (destination_chat f) (keywords f)
     (forward_media f) (delay_seconds f) (client f) b (running f)
     (session_id f) (db_session f) (stats f).
Definition with_running (b : bool) (f : t) : t :=
  mk (api_id f) (api_hash f) (phone f) (source_chat f) (destination_chat f) (keywords f)
     (forward_media f) (delay_seconds f) (client f) (authenticated f) b
     (session_id f) (db_session f) (stats f).
Definition with_db_session (o : option SessionObject.t) (f : t) : t :=
  mk (api_id f) (api_hash f) (phone f) (source_chat f) (destination_chat f) (keywords f)
     (forward_media f) (delay_seconds f) (client f) (authenticated f) (running f)
     (session_id f) o (stats f).
Definition with_stats (s : Stats.t) (f : t) : t :=
  mk (api_id f) (api_hash f) (phone f) (source_chat f) (destination_chat f) (keywords f)
     (forward_media f) (delay_seconds f) (client f) (authenticated f) (running f)
     (session_id f) (db_session f) s.
End TelegramAutoForwarder.
Import TelegramAutoForwarder.

(** [logger.info] / [logger.error] lines, in order. *)
Inductive LogLine := LogInfo (msg : pystr) | LogError (msg : pystr).

(** What the forwarder shares with the rest of the process: the module
    global [database] ([None] when [init_database] failed), the stored
    tables, the messages handed to [client.forward_messages] and the log. *)
Record Shared := mkShared {
  database : bool;
  store : Database;
  sent : list Z;
  log : list LogLine }.

Definition with_store (d : Database) (s : Shared) : Shared :=
  mkShared (database s) d (sent s) (log s).
Definition with_sent (l : list Z) (s : Shared) : Shared :=
  mkShared (database s) (store s) l (log s).
Definition with_log (l : list LogLine) (s : Shared) : Shared :=
  mkShared (database s) (store s) (sent s) l.

(** ** A state and exception monad for the methods

    An exception keeps the state reached when it was raised. *)

Definition St : Type := TelegramAutoForwarder.t * Shared.
Definition M (A : Type) : Type := St → St * (exn + A).

#[global] Instance M_ret : MRet M := λ A a s, (s, inr a).
#[global] Instance M_bind : MBind M := λ A B k m s,
  match m s with
  | (s', inr a) => k a s'
  | (s', inl e) => (s', inl e)
  end.
Definition raise {A} (e : exn) : M A := λ s, (s, inl e).
(** [try: body  except Exception as e: handler(e)] *)
Definition try_except {A} (body : M A) (handler : exn → M A) : M A :=
  λ s, match body s with
       | (s', inl e) => handler e s'
       | r => r
       end.
Definition get_self : M TelegramAutoForwarder.t := λ s, (s, inr (fst s)).
Definition get_shared : M Shared := λ s, (s, inr (snd s)).
Definition modify_self (f : TelegramAutoForwarder.t → TelegramAutoForwarder.t) : M unit :=
  λ s, ((f (fst s), snd s), inr tt).
Definition modify_shared (f : Shared → Shared) : M unit :=
  λ s, ((fst s, f (snd s)), inr tt).
Definition when (b : bool) (m : M unit) : M unit := if b then m else mret tt.

Definition logger_info (msg : pystr) : M unit :=
  modify_shared (λ s, with_log (log s ++ [LogInfo msg]) s).
Definition logger_error (msg : pystr) : M unit :=
  modify_shared (λ s, with_log (log s ++ [LogError msg]) s).

(** [db.session.commit()] after the given [db.session.add]s: it raises
    when the engine does, and otherwise writes the added rows. The
    session of the block holds nothing else. *)
Definition commit (raises : option exn) (added : Database → Database) : M unit :=
  match raises with
  | Some e => raise e
  | None => modify_shared (λ s, with_store (added (store s)) s)
  end.

(** [f"{x}"] of an optional string. *)
Definition fmt (o : option pystr) : pystr := default (py "None") o.

(** ** Inputs of a call *)

(** [event.message]: its id, its text ([None] for a message without
    text) and the class name of its media object ([None] without media). *)
Record Message := mkMessage {
  msg_id : Z;
  text : option pystr;
  media : option pystr }.

(** What the surroundings answer during one call. *)
Record Env := mkEnv {
  now : Z;                              (* datetime.now() *)
  utcnow : Z;                           (* datetime.utcnow() *)
  client_start_raises : option exn;     (* client.start(phone=...) *)
  is_user_authorized : bool;            (* client.is_user_authorized() *)
  get_entity_raises : option exn;       (* client.get_entity(...) *)
  forward_raises : option exn;          (* client.forward_messages(...) *)
  commit_raises : option exn;           (* db.session.commit() of the call *)
  error_commit_raises : option exn;     (* db.session.commit() in _log_error *)
  format_exc : pystr;                   (* traceback.format_exc() *)
  disconnect_raises : option exn;       (* client.disconnect() *)
  detached_error : exn }.               (* the DetachedInstanceError of a column
                                           read on a detached object *)

(** The reply dictionaries: [{'success': True, 'message': ...}] and
    [{'success': False, 'error': ...}]. *)
Inductive Result := Success (message : pystr) | Failure (error : pystr).

(** [start_forwarding] either returns or stays in
    [client.run_until_disconnected()]. *)
Inductive Outcome := Blocked | Returned (r : Result).

(** ** The methods of [TelegramAutoForwarder] *)

Section Methods.
Variable lower : pystr → pystr.

(** index.py 298-313 *)
Definition _log_error (env : Env) (error_type error_message : pystr)
    (stack_trace : option pystr) : M unit :=
  try_except
    (sh ← get_shared;
     when (database sh)
       (self ← get_self;
        let error_log :=
          ErrorLog.mk None (Some (session_id self)) error_type error_message
            stack_trace (utcnow env) false in
        commit (error_commit_raises env) (insert_error error_log)))
    (λ e, logger_error (py "Failed to log error to database: " ++ str_exn e)).

(** [if self.db_session: self.db_session.messages_forwarded += 1;
    self.db_session.last_activity = utcnow] (index.py 290-292). The [+=]
    reads the column first: on a detached object the read raises
    [DetachedInstanceError]; on an object that was never inserted the
    column is [None], and [None + 1] raises [TypeError]. *)
Definition bump_session (env : Env) : M unit :=
  self ← get_self;
  match db_session self with
  | Some (SessionObject.Detached _ _ _) => raise (detached_error env)
  | Some (SessionObject.Transient obj) =>
      match BotSession.messages_forwarded obj with
      | Some n =>
          modify_self (with_db_session
            (Some (SessionObject.Transient
                     (BotSession.forwarded (n + 1) (utcnow env) obj))))
      | None =>
          raise (Exception (py "unsupported operand type(s) for +=: 'NoneType' and 'int'"))
      end
  | None => mret tt
  end.

(** The row built by [_log_forwarded_message] (index.py 266-286). *)
Definition forwarded_msg (self : TelegramAutoForwarder.t) (env : Env) (event : Message)
    (matched_keywords : bool) : ForwardedMessage.t :=
  let message_text := or_empty (text event) in
  let media_type := media event in
  let matched_kw :=
    if matched_keywords && list_truthy (keywords self) then
      match matched_of lower (keywords self) message_text with
      | [] => None
      | matched => Some (join (py ",") matched)
      end
    else None in
  ForwardedMessage.mk None (msg_id event) (source_chat self)
    (destination_chat self) (Some (take 1000 message_text))
    (obj_truthy (media event)) media_type (utcnow env) matched_kw.

(** index.py 261-296 *)
Definition _log_forwarded_message (env : Env) (event : Message)
    (matched_keywords : bool) : M unit :=
  try_except
    (sh ← get_shared;
     when (database sh)
       (self ← get_self;
        let row := forwarded_msg self env event matched_keywords in
        bump_session env;;
        commit (commit_raises env) (insert_message row)))
    (λ e, logger_error (py "Failed to log forwarded message: " ++ str_exn e)).

(** [await self.client.forward_messages(dest_entity, event.message)] *)
Definition forward_messages (env : Env) (event : Message) : M unit :=
  match forward_raises env with
  | Some e => raise e
  | None => modify_shared (λ s, with_sent (sent s ++ [msg_id event]) s)
  end.

(** index.py 167-206. [asyncio.sleep] changes nothing that is modelled. *)
Definition message_handler (env : Env) (event : Message) : M unit :=
  try_except
    (modify_self (λ f, with_stats (Stats.received (now env) (stats f)) f);;
     let message_text := or_empty (text event) in
     self ← get_self;
     let should := should_forward lower (keywords self) message_text in
     when should
       match client self with
       | Some _ =>
           (if forward_media self && obj_truthy (media event)
            then forward_messages env event
            else if negb (obj_truthy (media event))
            then forward_messages env event
            else mret tt);;
           modify_self (λ f, with_stats (Stats.forwarded (stats f)) f);;
           _log_forwarded_message env event should;;
           logger_info (py "Forwarded message from " ++ fmt (source_chat self)
                        ++ py " to " ++ fmt (destination_chat self))
       | None => mret tt
       end)
    (λ e,
     let error_msg := py "Error forwarding message: " ++ str_exn e in
     logger_error error_msg;;
     _log_error env (py "forwarding") error_msg (Some (format_exc env));;
     modify_self (λ f, with_stats
                         (Stats.error (now env) error_msg (stats f)) f)).

(** index.py 241-259. The unique [session_id] makes the commit raise
    when the identifier is already stored. The object is assigned to
    [self.db_session] before the commit; after a commit that went
    through, the end of the block leaves it detached. *)
Definition _create_db_session (env : Env) : M unit :=
  try_except
    (sh ← get_shared;
     when (database sh)
       (self ← get_self;
        let obj :=
          BotSession.mk None (session_id self) (source_chat self)
            (destination_chat self)
            (match keywords self with
             | [] => None
             | kws => Some (join (py ",") kws)
             end)
            (forward_media self) (delay_seconds self)
            (utcnow env) None true None None None in
        modify_self (with_db_session (Some (SessionObject.Transient obj)));;
        let key := S (length (bot_sessions (store sh))) in
        commit (if session_id_taken (BotSession.session_id obj) (store sh)
                then Some (Exception (py "UNIQUE constraint failed: bot_sessions.session_id"))
                else commit_raises env)
               (insert_session (BotSession.inserted key (utcnow env) obj));;
        modify_self (with_db_session (Some (SessionObject.Detached key None None)))))
    (λ e, logger_error (py "Failed to create database session: " ++ str_exn e)).

(** index.py 315-330. The two assignments change the object in memory
    only: the session of this block does not hold it, and the commit
    writes nothing. [client.disconnect()] is outside the [try]. *)
Definition stop_forwarding (env : Env) : M unit :=
  modify_self (with_running false);;
  try_except
    (sh ← get_shared;
     self ← get_self;
     when (database sh && obj_truthy (db_session self))
       (modify_self (λ f, with_db_session
                            (SessionObject.stopped (utcnow env) <$> db_session f) f);;
        commit (commit_raises env) (λ d, d)))
    (λ e, logger_error (py "Failed to update database session: " ++ str_exn e));;
  self ← get_self;
  match client self with
  | Some c =>
      match disconnect_raises env with
      | Some e => raise e
      | None => modify_self (with_client (Some (mkClient false (has_handler c))))
      end
  | None => mret tt
  end.

(** [await self.client.start(phone=self.phone)] *)
Definition client_start (env : Env) : M unit :=
  match client_start_raises env with
  | Some e => raise e
  | None => modify_self (with_client (Some (mkClient true false)))
  end.

(** index.py 83-135 *)
Definition initialize (env : Env) : M Result :=
  try_except
    (self ← get_self;
     if negb (int_truthy (api_id self)
              && opt_truthy (api_hash self)
              && opt_truthy (phone self))
     then mret (Failure (py "Missing required environment variables: "
                         ++ py "TELEGRAM_API_ID, TELEGRAM_API_HASH, TELEGRAM_PHONE"))
     else
       modify_self (with_client (Some (mkClient false false)));;
       client_start env;;
       if is_user_authorized env then
         modify_self (with_authenticated true);;
         logger_info (py "Successfully authenticated with existing session");;
         mret (Success (py "Successfully authenticated with existing session"))
       else
         mret (Failure (py "Session expired or invalid. Run setup_auth.py to re-authenticate.")))
    (λ e,
     let error_msg := py "Failed to initialize Telegram client: " ++ str_exn e in
     logger_error error_msg;;
     _log_error env (py "initialization") error_msg (Some (format_exc env));;
     mret (Failure error_msg)).

(** [@self.client.on(events.NewMessage(chats=source_entity))] *)
Definition register_handler : M unit :=
  modify_self (λ f,
    with_client
      (match client f with
       | Some c => Some (mkClient (connected c) true)
       | None => None
       end) f).

(** index.py 137-239, up to the call that blocks. *)
Definition start_forwarding (env : Env) : M Outcome :=
  try_except
    (self ← get_self;
     init_result ←
       (if negb (obj_truthy (client self)) || negb (authenticated self)
        then initialize env
        else mret (Success []));
     match init_result with
     | Failure _ => mret (Returned init_result)
     | Success _ =>
         self ← get_self;
         if negb (opt_truthy (source_chat self)
                  && opt_truthy (destination_chat self))
         then mret (Returned (Failure (py "SOURCE_CHAT and DESTINATION_CHAT must be configured")))
         else
           match get_entity_raises env with
           | Some e =>
               mret (Returned (Failure (py "Failed to get chat entities: " ++ str_exn e)))
           | None =>
               logger_info (py "Successfully connected to chats: "
                            ++ fmt (source_chat self) ++ py " -> "
                            ++ fmt (destination_chat self));;
               register_handler;;
               modify_self (with_running true);;
               modify_self (λ f, with_stats
                                   (Stats.started (now env) (stats f)) f);;
               _create_db_session env;;
               logger_info (py "Started forwarding from "
                            ++ fmt (source_chat self) ++ py " to "
                            ++ fmt (destination_chat self));;
               self ← get_self;
               match client self with
               | Some _ => mret Blocked
               | None => mret (Returned (Success (py "Forwarding started successfully")))
               end
           end
     end)
    (λ e,
     let error_msg := py "Failed to start forwarding: " ++ str_exn e in
     logger_error error_msg;;
     _log_error env (py "startup") error_msg (Some (format_exc env));;
     mret (Returned (Failure error_msg))).

(** ** The control surface: module globals and routes *)

(** The environment variables as [__init__] reads them; [cfg_api_id] is
    [int(api_id_str) if api_id_str else None], which raises on a string
    that is not a number, and [cfg_stamp] is
    [datetime.now().strftime('%Y%m%d_%H%M%S')]. *)
Record Config := mkConfig {
  cfg_api_id : exn + option Z;
  cfg_api_hash : option pystr;
  cfg_phone : option pystr;
  cfg_source_chat : option pystr;
  cfg_destination_chat : option pystr;
  cfg_keywords : list pystr;
  cfg_forward_media : bool;
  cfg_delay_seconds : Z;
  cfg_stamp : pystr }.

(** index.py 50-75 *)
Definition __init__ (cfg : Config) : exn + TelegramAutoForwarder.t :=
  match cfg_api_id cfg with
  | inl e => inl e
  | inr api_id =>
      inr (TelegramAutoForwarder.mk api_id (cfg_api_hash cfg) (cfg_phone cfg) (cfg_source_chat cfg)
             (cfg_destination_chat cfg) (cfg_keywords cfg) (cfg_forward_media cfg)
             (cfg_delay_seconds cfg) None false false (py "bot_" ++ cfg_stamp cfg) None
             (Stats.mk 0 0 None None []))
  end.

(** The module globals [bot_instance] and [bot_running], the forwarders
    held by the threads that sit in [run_until_disconnected], and the
    shared part. *)
Record World := mkWorld {
  bot_instance : option TelegramAutoForwarder.t;
  bot_running : bool;
  threads : list TelegramAutoForwarder.t;
  shared : Shared }.

(** [f"{result}"], the rendering of the reply dictionary. *)
Definition fmt_result (r : Result) : pystr :=
  match r with
  | Success m => py "{'success': True, 'message': '" ++ m ++ py "'}"
  | Failure m => py "{'success': False, 'error': '" ++ m ++ py "'}"
  end.

(** index.py 347-362, run until the thread blocks or ends.
    [main] assigns [bot_instance] without declaring it [global] (only the
    enclosing [run_bot_async] does), so the name is local to [main]: the
    module global [bot_instance] is not written. *)
Definition run_bot_async (cfg : Config) (env : Env) (w : World) : World :=
  match __init__ cfg with
  | inl e =>
      mkWorld (bot_instance w) false (threads w)
        (with_log (log (shared w) ++ [LogError (py "Bot error: " ++ str_exn e)]) (shared w))
  | inr local_bot_instance =>
      match start_forwarding env (local_bot_instance, shared w) with
      | ((bot, sh), inr Blocked) =>
          mkWorld (bot_instance w) true (threads w ++ [bot]) sh
      | ((bot, sh), inr (Returned result)) =>
          mkWorld (bot_instance w) true (threads w)
            (with_log (log sh ++ [LogInfo (py "Bot result: " ++ fmt_result result)]) sh)
      | ((bot, sh), inl e) =>
          mkWorld (bot_instance w) false (threads w)
            (with_log (log sh ++ [LogError (py "Bot error: " ++ str_exn e)]) sh)
      end
  end.

(** index.py 384-405; the thread is taken to reach its blocking call (or
    its end) during the [time.sleep(2)]. *)
Definition start_bot (cfg : Config) (env : Env) (w : World) : World * Result :=
  if bot_running w
  then (w, Failure (py "Bot is already running"))
  else (run_bot_async cfg env w,
        Success (py "Bot start initiated. Check status for details.")).

(** index.py 407-420 *)
Definition stop_bot (env : Env) (w : World) : World * (exn + Result) :=
  match bot_instance w with
  | Some bot =>
      match stop_forwarding env (bot, shared w) with
      | ((bot', sh), inr _) =>
          (mkWorld (Some bot') false (threads w) sh,
           inr (Success (py "Bot stopped successfully")))
      | ((bot', sh), inl e) => (mkWorld (Some bot') (bot_running w) (threads w) sh, inl e)
      end
  | None =>
      (mkWorld None false (threads w) (shared w),
       inr (Success (py "Bot stopped successfully")))
  end.

(** A new message of the source chat reaches the handler registered by
    the [i]-th waiting thread. *)
Definition deliver (i : nat) (env : Env) (event : Message) (w : World) : World :=
  match threads w !! i with
  | Some bot =>
      match client bot with
      | Some (mkClient true true) =>
          match message_handler env event (bot, shared w) with
          | ((bot', sh), _) =>
              mkWorld (bot_instance w) (bot_running w) (<[i := bot']> (threads w)) sh
          end
      | _ => w
      end
  | None => w
  end.

(** What an operator and the chat can do to the process. *)
Inductive Call :=
| CallStart (cfg : Config) (env : Env)
| CallStop (env : Env)
| CallMessage (i : nat) (env : Env) (event : Message).

Definition step (w : World) (c : Call) : World :=
  match c with
  | CallStart cfg env => fst (start_bot cfg env w)
  | CallStop env => fst (stop_bot env w)
  | CallMessage i env event => deliver i env event w
  end.

Definition run (calls : list Call) (w : World) : World := foldl step w calls.

(** The process after import, before [auto_start_bot]. *)
Definition initial_world (database_ok : bool) : World :=
  mkWorld None false [] (mkShared database_ok empty_db [] []).
End Methods.

(** ** The dashboard queries *)

(** [ForwardedMessage.forwarded_at.desc()] *)
Definition newer_first (a b : ForwardedMessage.t) : Prop :=
  ForwardedMessage.forwarded_at b ≤ ForwardedMessage.forwarded_at a.

#[global] Instance newer_first_dec a b : Decision (newer_first a b).
Proof. unfold newer_first. apply _. Defined.

(** [ForwardedMessage.query.order_by(...).limit(limit).all()] *)
Definition query_recent (limit : nat) (d : Database) : list ForwardedMessage.t :=
  take limit (merge_sort newer_first (forwarded_messages d)).

(** index.py 445-460: the reply, or the error string of the 500 reply. *)
Definition get_forwarded_messages (query_raises : option exn) (limit : nat) (sh : Shared)
    : pystr + (list ForwardedMessage.t * nat) :=
  if negb (database sh) then inl (py "Database not available")
  else match query_raises with
       | Some e => inl (str_exn e)
       | None =>
           let messages := query_recent limit (store sh) in
           inr (ForwardedMessage.to_dict <$> messages, length messages)
       end.

Record DatabaseStats := mkDatabaseStats {
  total_messages_forwarded : nat;
  total_sessions : nat;
  active_sessions : nat;
  total_errors : nat;
  unresolved_errors : nat;
  messages_last_24h : nat }.

Definition count {A} (p : A → bool) (l : list A) : nat := length (List.filter p l).

(** index.py 494-522; [timedelta(days=1)] is 86400 seconds. *)
Definition get_database_stats (query_raises : option exn) (utcnow : Z) (sh : Shared)
    : pystr + DatabaseStats :=
  if negb (database sh) then inl (py "Database not available")
  else match query_raises with
       | Some e => inl (str_exn e)
       | None =>
           let d := store sh in
           let yesterday := utcnow - 86400 in
           inr (mkDatabaseStats
                  (length (forwarded_messages d))
                  (length (bot_sessions d))
                  (count BotSession.is_active (bot_sessions d))
                  (length (error_logs d))
                  (count (λ e, negb (ErrorLog.resolved e)) (error_logs d))
                  (count (λ m, yesterday <=? ForwardedMessage.forwarded_at m)
                         (forwarded_messages d)))
       end.

(** ** Sample inputs for the scenarios *)

Definition sample_session : BotSession.t :=
  BotSession.mk (Some 1%nat) (py "bot_20250101_000000") (Some (py "@src")) (Some (py "@dst"))
    (Some (py "sale")) false 2 100 None true (Some 0) (Some 0) (Some 100).

(** A forwarder waiting for messages, with the keyword "sale"; its
    session object was inserted as [sample_session]. *)
Definition sample_forwarder (flag : bool) : TelegramAutoForwarder.t :=
  TelegramAutoForwarder.mk (Some 12345) (Some (py "hash")) (Some (py "+10000000000"))
    (Some (py "@src")) (Some (py "@dst")) [py "sale"] flag 2
    (Some (mkClient true true)) true true (py "bot_20250101_000000")
    (Some (SessionObject.Detached 1 None None)) (Stats.mk 0 0 None (Some 100) []).

Definition sample_shared : Shared :=
  mkShared true (mkDatabase [] [sample_session] []) [] [].

(** A [DetachedInstanceError]. *)
Definition sample_detached_error : exn :=
  Exception (py "Instance <BotSession at 0x7f3a5c1d2e50> is not bound to a Session; "
             ++ py "attribute refresh operation cannot proceed").

(** Everything the surroundings do succeeds, at time [t]. *)
Definition calm (t : Z) : Env :=
  mkEnv t t None true None None None None (py "Traceback") None sample_detached_error.

(** The forward raises. *)
Definition forward_fails (t : Z) : Env :=
  mkEnv t t None true None (Some (Exception (py "FloodWaitError"))) None None
    (py "Traceback") None sample_detached_error.

(** [client.disconnect()] raises. *)
Definition disconnect_fails (t : Z) : Env :=
  mkEnv t t None true None None None None (py "Traceback")
    (Some (Exception (py "ConnectionError"))) sample_detached_error.

(** Every commit raises. *)
Definition commits_fail (t : Z) : Env :=
  mkEnv t t None true None None (Some (Exception (py "OperationalError")))
    (Some (Exception (py "OperationalError"))) (py "Traceback") None
    sample_detached_error.

Definition text_message : Message := mkMessage 7 (Some (py "Big Sale Today")) None.
Definition photo_message : Message :=
  mkMessage 8 (Some (py "Sale photo")) (Some (py "MessageMediaPhoto")).

Definition sample_config (stamp : pystr) : Config :=
  mkConfig (inr (Some 12345)) (Some (py "hash")) (Some (py "+10000000000"))
    (Some (py "@src")) (Some (py "@dst")) [] true 2 stamp.

(** The configuration of [sample_forwarder]: the keyword "sale". *)
Definition sale_config (flag : bool) (stamp : pystr) : Config :=
  mkConfig (inr (Some 12345)) (Some (py "hash")) (Some (py "+10000000000"))
    (Some (py "@src")) (Some (py "@dst")) [py "sale"] flag 2 stamp.

(** Three stored messages, the second the most recent. *)
Definition three_messages : Shared :=
  mkShared true
    (mkDatabase
       [ForwardedMessage.mk (Some 1%nat) 11 (Some (py "@src")) (Some (py "@dst"))
          (Some (py "first")) false None 10 None;
        ForwardedMessage.mk (Some 2%nat) 12 (Some (py "@src")) (Some (py "@dst"))
          (Some (py "second")) false None 30 None;
        ForwardedMessage.mk (Some 3%nat) 13 (Some (py "@src")) (Some (py "@dst"))
          (Some (py "third")) false None 20 None]
       [] [])
    [] [].

(** A text of 1500 characters. *)
Definition long_message : Message := mkMessage 9 (Some (replicate 1500 97%N)) None.

(** ** Reading the configuration (index.py 50-81) *)

Section Strip.
(** [str.isspace] on one code point. *)
Variable isspace : codepoint → bool.

(** [s.lstrip()] *)
Fixpoint lstrip (s : pystr) : pystr :=
  match s with
  | [] => []
  | c :: s' => if isspace c then lstrip s' else s
  end.

(** [s.rstrip()] *)
Definition rstrip (s : pystr) : pystr := reverse (lstrip (reverse s)).

(** [s.strip()] *)
Definition strip (s : pystr) : pystr := rstrip (lstrip s).
End Strip.

(** [s.split(sep)] for a separator of one character. *)
Fixpoint split (sep : codepoint) (s : pystr) : list pystr :=
  match s with
  | [] => [[]]
  | c :: s' =>
      if N.eqb c sep then [] :: split sep s'
      else match split sep s' with
           | p :: ps => (c :: p) :: ps
           | [] => [[c]]
           end
  end.

(** The comma, [','] *)
Definition comma : codepoint := 44%N.

(** index.py 77-81 *)
Definition _parse_keywords (isspace : codepoint → bool) (keywords_str : pystr) : list pystr :=
  if str_truthy keywords_str
  then List.filter str_truthy (strip isspace <$> split comma keywords_str)
  else [].

(** [str.isspace] restricted to the ASCII range, for the scenarios. *)
Definition ascii_isspace (c : codepoint) : bool :=
  (N.leb 9 c && N.leb c 13) || (N.leb 28 c && N.leb c 32).

(** [os.environ]: the variables that are set. *)
Abbreviation Environ := (gmap pystr pystr).

Section Environment.
Variable lower : pystr → pystr.
Variable isspace : codepoint → bool.
(** [str.isdigit] on one code point, and [int(s)] on a string. *)
Variable isdigit : codepoint → bool.
Variable int : pystr → exn + Z.

(** [s.isdigit()]: at least one character, all of them digits. *)
Definition str_isdigit (s : pystr) : bool := str_truthy s && forallb isdigit s.

(** What [__init__] reads from the environment (index.py 52-62), in the
    order of the source: the two [int] calls can raise. *)
Definition read_environ (environ : Environ) (stamp : pystr) : exn + Config :=
  match
    match environ !! py "TELEGRAM_API_ID" with
    | Some api_id_str =>
        if str_truthy api_id_str
        then match int api_id_str with
             | inl e => inl e
             | inr n => inr (Some n)
             end
        else inr None
    | None => inr None
    end
  with
  | inl e => inl e
  | inr api_id =>
      let delay_str := default (py "2") (environ !! py "DELAY_SECONDS") in
      match (if str_isdigit delay_str then int delay_str else inr 2) with
      | inl e => inl e
      | inr delay_seconds =>
          inr (mkConfig (inr api_id)
                 (environ !! py "TELEGRAM_API_HASH")
                 (environ !! py "TELEGRAM_PHONE")
                 (environ !! py "SOURCE_CHAT")
                 (environ !! py "DESTINATION_CHAT")
                 (_parse_keywords isspace (default [] (environ !! py "KEYWORDS")))
                 (bool_decide (lower (default (py "true") (environ !! py "FORWARD_MEDIA"))
                               = py "true"))
                 delay_seconds stamp)
      end
  end.

(** A configuration on which the constructor raises [e]. *)
Definition raising_config (e : exn) : Config :=
  mkConfig (inl e) None None None None [] true 2 [].

(** [start_bot] with the constructor reading the environment. *)
Definition start_bot_environ (environ : Environ) (stamp : pystr) (env : Env) (w : World)
    : World * Result :=
  match read_environ environ stamp with
  | inr cfg => start_bot cfg env w
  | inl e => start_bot (raising_config e) env w
  end.

Definition required_vars : list pystr :=
  [py "TELEGRAM_API_ID"; py "TELEGRAM_API_HASH"; py "TELEGRAM_PHONE";
   py "SOURCE_CHAT"; py "DESTINATION_CHAT"].

(** [[var for var in required_vars if not os.getenv(var)]] *)
Definition missing_vars (environ : Environ) : list pystr :=
  List.filter (λ var, negb (opt_truthy (environ !! var))) required_vars.

(** [f"{l}"] of a list of strings. *)
Definition repr_list (l : list pystr) : pystr :=
  py "[" ++ join (py ", ") ((λ s, py "'" ++ s ++ py "'") <$> l) ++ py "]".

(** What [jsonify] raises when no application context is active; the
    message goes on with advice on how to set one up. *)
Definition RuntimeError : exn :=
  Exception (py "Working outside of application context.").

(** index.py 525-534, as the module calls it at import (index.py 537).
    No request is being served there, so no application context is
    active: [start_bot] starts its thread and then raises at the
    [jsonify] that builds its reply, and so does [auto_start_bot]. *)
Definition auto_start_bot (environ : Environ) (stamp : pystr) (env : Env) (w : World)
    : World * (exn + unit) :=
  if forallb (λ var, opt_truthy (environ !! var)) required_vars then
    let w' :=
      mkWorld (bot_instance w) (bot_running w) (threads w)
        (with_log (log (shared w)
                   ++ [LogInfo (py "Auto-starting bot with environment configuration...")])
           (shared w)) in
    (fst (start_bot_environ environ stamp env w'), inl RuntimeError)
  else
    (mkWorld (bot_instance w) (bot_running w) (threads w)
       (with_log (log (shared w)
                  ++ [LogInfo (py "Auto-start disabled. Missing environment variables: "
                               ++ repr_list (missing_vars environ))])
          (shared w)),
     inr tt).
End Environment.

(** ** The status routes (index.py 332-345, 370-382, 435-442) *)

(** The dictionary of [get_stats]. *)
Record StatsSnapshot := mkSnapshot {
  snap_running : bool;
  snap_authenticated : bool;
  snap_stats : Stats.t;
  snap_source_chat : option pystr;
  snap_destination_chat : option pystr;
  snap_keywords : list pystr;
  snap_forward_media : bool;
  snap_delay_seconds : Z }.

Definition get_stats (self : TelegramAutoForwarder.t) : StatsSnapshot :=
  mkSnapshot (running self) (authenticated self) (stats self) (source_chat self)
    (destination_chat self) (keywords self) (forward_media self) (delay_seconds self).

(** The reply of [/api/status]: the statistics of the global forwarder, or
    [{'running': False, 'authenticated': False, 'message': 'Bot not initialized'}]. *)
Inductive StatusReply := StatusOf (s : StatsSnapshot) | BotNotInitialized.

Definition status (w : World) : StatusReply :=
  match bot_instance w with
  | Some bot => StatusOf (get_stats bot)
  | None => BotNotInitialized
  end.

(** The reply of [/api/health]: status, timestamp, [bot_running]. *)
Definition health (now : Z) (w : World) : pystr * Z * bool :=
  (py "healthy", now, bot_running w).

(** ** The other dashboard queries (index.py 462-492, models.py 58-95) *)

(** [column.desc()] for a timestamp column. *)
Definition later_first {A} (key : A → Z) (a b : A) : Prop := key b ≤ key a.

#[global] Instance later_first_dec {A} (key : A → Z) a b : Decision (later_first key a b).
Proof. unfold later_first. apply _. Defined.

(** [BotSession.to_dict]: [self.last_activity.isoformat()] raises on a
    missing timestamp; [started_at] is set by every constructor call. *)
Definition session_to_dict (s : BotSession.t) : exn + BotSession.t :=
  match BotSession.last_activity s with
  | Some _ => inr s
  | None => inl (Exception (py "'NoneType' object has no attribute 'isoformat'"))
  end.

(** [ErrorLog.to_dict]: the dictionary has no ['stack_trace'] entry. *)
Definition error_to_dict (e : ErrorLog.t) : ErrorLog.t :=
  ErrorLog.mk (ErrorLog.id e) (ErrorLog.session_id e) (ErrorLog.error_type e)
    (ErrorLog.error_message e) None (ErrorLog.occurred_at e) (ErrorLog.resolved e).

(** [[f(x) for x in l]] where [f] can raise. *)
Fixpoint map_raising {A B} (f : A → exn + B) (l : list A) : exn + list B :=
  match l with
  | [] => inr []
  | x :: l' =>
      match f x with
      | inl e => inl e
      | inr y => match map_raising f l' with
                 | inl e => inl e
                 | inr ys => inr (y :: ys)
                 end
      end
  end.

(** index.py 462-476 *)
Definition get_bot_sessions (query_raises : option exn) (sh : Shared)
    : pystr + (list BotSession.t * nat) :=
  if negb (database sh) then inl (py "Database not available")
  else match query_raises with
       | Some e => inl (str_exn e)
       | None =>
           let sessions :=
             take 20 (merge_sort (later_first BotSession.started_at)
                        (bot_sessions (store sh))) in
           match map_raising session_to_dict sessions with
           | inl e => inl (str_exn e)
           | inr dicts => inr (dicts, length sessions)
           end
       end.

(** index.py 478-492 *)
Definition get_error_logs (query_raises : option exn) (sh : Shared)
    : pystr + (list ErrorLog.t * nat) :=
  if negb (database sh) then inl (py "Database not available")
  else match query_raises with
       | Some e => inl (str_exn e)
       | None =>
           let errors :=
             take 30 (merge_sort (later_first ErrorLog.occurred_at)
                        (error_logs (store sh))) in
           inr (error_to_dict <$> errors, length errors)
       end.

(** ** A run of messages on one forwarder *)

Fixpoint handle_all (lower : pystr → pystr) (events : list (Env * Message)) (s : St) : St :=
  match events with
  | [] => s
  | (env, event) :: events' =>
      handle_all lower events' (fst (message_handler lower env event s))
  end.

(** ** What holds of every waiting forwarder and of the tables *)

(** The in-memory counters of a forwarder: forwarded never exceeds
    received. *)
Definition counters_ok (self : TelegramAutoForwarder.t) : Prop :=
  0 ≤ Stats.messages_forwarded (stats self)
    ≤ Stats.messages_received (stats self).

(** A session object whose forwarded count cannot be incremented: the
    read of the column raises, or gives [None]. *)
Definition unusable (o : SessionObject.t) : Prop :=
  match o with
  | SessionObject.Transient obj => BotSession.messages_forwarded obj = None
  | SessionObject.Detached _ _ _ => True
  end.

(** With the database available, a forwarder that went through
    [_create_db_session] holds such an object. *)
Definition holds_session (database_ok : bool) (self : TelegramAutoForwarder.t) : Prop :=
  database_ok = true → ∃ o, db_session self = Some o ∧ unusable o.

(** The forwarder is connected, subscribed and marked running. *)
Definition waiting (self : TelegramAutoForwarder.t) : Prop :=
  client self = Some (mkClient true true) ∧ running self = true.

(** What holds of a forwarder that waits in a process whose [database]
    global is [database_ok]. *)
Definition thread_ok (database_ok : bool) (bot : TelegramAutoForwarder.t) : Prop :=
  counters_ok bot ∧ waiting bot ∧ holds_session database_ok bot.

(** A session row as the INSERT left it: no column was updated since. *)
Definition as_inserted (r : BotSession.t) : Prop :=
  BotSession.is_active r = true ∧ BotSession.stopped_at r = None ∧
  BotSession.messages_received r = Some 0 ∧
  BotSession.messages_forwarded r = Some 0 ∧
  is_Some (BotSession.last_activity r).

(** The tables of a process that started on empty ones. *)
Definition tables_ok (d : Database) : Prop :=
  forwarded_messages d = [] ∧
  Forall as_inserted (bot_sessions d) ∧
  Forall (λ e, ErrorLog.resolved e = false) (error_logs d).

(** ** The one-time setup (setup_auth.py 16-100) *)

Section Setup.
Variable isspace : codepoint → bool.
Variable int : pystr → exn + Z.

(** What the surroundings answer during the setup; the writes to the
    terminal are left out. *)
Record SetupEnv := mkSetupEnv {
  setup_start_raises : option exn;      (* client.start(phone=phone) *)
  setup_is_authorized : bool;           (* client.is_user_authorized() *)
  setup_get_me_raises : option exn;     (* client.get_me() and the line printed from it *)
  setup_write_raises : option exn }.    (* open('.env', 'w') / f.write *)

(** What the setup leaves: the value returned, the credentials of the
    [.env] file when it was written in full ([None] when nothing or only
    a part was written), and whether a client was created and
    disconnected. *)
Record SetupOutcome := mkSetupOutcome {
  returned : bool;
  env_file : option (Z * pystr * pystr);
  client_created : bool;
  client_disconnected : bool }.

Definition setup_authentication (env : SetupEnv) (line1 line2 line3 : pystr)
    : SetupOutcome :=
  let api_id := strip isspace line1 in
  let api_hash := strip isspace line2 in
  let phone := strip isspace line3 in
  if negb (str_truthy api_id && str_truthy api_hash && str_truthy phone)
  then mkSetupOutcome false None false false
  else
    match int api_id with
    | inl _ => mkSetupOutcome false None false false
    | inr api_id =>
        (* client = TelegramClient(...);  try: ... finally: client.disconnect() *)
        match setup_start_raises env with
        | Some _ => mkSetupOutcome false None true true
        | None =>
            if setup_is_authorized env then
              match setup_get_me_raises env with
              | Some _ => mkSetupOutcome false None true true
              | None =>
                  match setup_write_raises env with
                  | Some _ => mkSetupOutcome false None true true
                  | None => mkSetupOutcome true (Some (api_id, api_hash, phone)) true true
                  end
              end
            else mkSetupOutcome false None true true
        end
    end.
End Setup.

(** ** More sample inputs *)

(** The forwarder [__init__] builds from [sample_config]. *)
Definition fresh_forwarder (stamp : pystr) : TelegramAutoForwarder.t :=
  TelegramAutoForwarder.mk (Some 12345) (Some (py "hash")) (Some (py "+10000000000"))
    (Some (py "@src")) (Some (py "@dst")) [] true 2 None false false
    (py "bot_" ++ stamp) None (Stats.mk 0 0 None None []).

Definition empty_shared : Shared := mkShared true empty_db [] [].

(** An environment with all the required variables and two keywords. *)
Definition sample_environ : Environ :=
  <[py "TELEGRAM_API_ID" := py "12345"]>
  (<[py "TELEGRAM_API_HASH" := py "hash"]>
  (<[py "TELEGRAM_PHONE" := py "+10000000000"]>
  (<[py "SOURCE_CHAT" := py "@src"]>
  (<[py "DESTINATION_CHAT" := py "@dst"]>
  (<[py "KEYWORDS" := py " sale , ,offer"]> ∅))))).

(** [str.isdigit] and [int] restricted to the ASCII digits. *)
Definition ascii_isdigit (c : codepoint) : bool := N.leb 48 c && N.leb c 57.

Definition ascii_int (s : pystr) : exn + Z :=
  if str_truthy s && forallb ascii_isdigit s
  then inr (fold_left (λ acc c, 10 * acc + Z.of_N (c - 48)) s 0)
  else inl (Exception (py "invalid literal for int() with base 10")).

(** * Properties *)

Arguments py : simpl never.
Opaque py.

(** ** Substring search and the keyword filter *)

Lemma starts_with_spec needle hay :
  starts_with needle hay = true ↔ ∃ suf, hay = needle ++ suf.
Proof.
  revert hay. induction needle as [|a needle IH]; intros hay; simpl.
  - split; [intros _; by exists hay | done].
  - destruct hay as [|b hay].
    + split; [done | intros [suf Hs]; discriminate Hs].
    + rewrite andb_true_iff, N.eqb_eq, IH. split.
      * intros [-> [suf ->]]. by exists suf.
      * intros [suf Hs]. injection Hs as -> ->. eauto.
Qed.

Lemma str_in_spec needle hay : str_in needle hay = true ↔ substring needle hay.
Proof.
  unfold substring. induction hay as [|b hay IH].
  - simpl. rewrite orb_false_r, starts_with_spec. split.
    + intros [suf Hs]. by exists [], suf.
    + intros [pre [suf Hs]]. destruct pre as [|p pre]; [eauto | discriminate Hs].
  - cbn [str_in]. rewrite orb_true_iff, starts_with_spec, IH. split.
    + intros [[suf Hs] | [pre [suf Hs]]].
      * by exists [], suf.
      * exists (b :: pre), suf. by rewrite Hs.
    + intros [[|p pre] [suf Hs]].
      * left. by exists suf.
      * right. injection Hs as _ Hs. eauto.
Qed.

(** C1. The per-message filter lets a message through exactly when the
    keyword list is empty or some keyword, lowercased, is a substring of
    the lowercased text; this holds for whatever [str.lower] does on
    Unicode text. *)
Theorem should_forward_iff (lower : pystr → pystr) (K : list pystr) (T : pystr) :
  should_forward lower K T = true ↔
  K = [] ∨ ∃ k, In k K ∧ substring (lower k) (lower T).
Proof.
  destruct K as [|k0 K]; [simpl; split; auto|].
  unfold should_forward, any_keyword. rewrite existsb_exists. split.
  - intros [k [Hin Hk]]. right. exists k. by rewrite <- str_in_spec.
  - intros [HK | [k [Hin Hk]]]; [discriminate HK|].
    exists k. by rewrite str_in_spec.
Qed.

Example scenario_sale_matches :
  should_forward ascii_lower [py "sale"] (py "Big Sale Today") = true.
Proof. vm_compute. reflexivity. Qed.

Example scenario_sale_no_match :
  should_forward ascii_lower [py "sale"] (py "No discounts") = false.
Proof. vm_compute. reflexivity. Qed.

Example scenario_no_keywords (T : pystr) : should_forward ascii_lower [] T = true.
Proof. reflexivity. Qed.

(** ** The methods, as state transformers *)

(** Runs a method on a state: unfolds the monad and the setters. *)
Ltac run_m :=
  cbv beta iota zeta delta
    [start_forwarding initialize register_handler client_start
     message_handler _log_error _log_forwarded_message _create_db_session
     stop_forwarding bump_session forward_messages commit logger_error logger_info
     when try_except raise get_self get_shared modify_self modify_shared
     mbind mret M_bind M_ret fst snd
     with_stats with_db_session with_running
     with_client with_authenticated with_store with_sent with_log
     api_id api_hash phone source_chat
     destination_chat keywords forward_media
     delay_seconds client authenticated running
     session_id db_session stats
     database store sent log];
  simpl.


(** The cases of the object a forwarder holds. *)
Ltac destruct_session dbs :=
  destruct dbs as [[[? ? ? ? ? ? ? ? ? ? ? [?|] ?]|? ? ?]|].

(** ** Which messages are handed on *)

(** The claim C4 as the spec words it: whatever the flag and the media,
    a message that passes the filter reaches [forward_messages]. *)
Lemma forward_media_flag_counterexample :
  ¬ (∀ env event self sh c,
       should_forward ascii_lower (keywords self) (or_empty (text event)) = true →
       client self = Some c →
       forward_raises env = None →
       sent (snd (fst (message_handler ascii_lower env event (self, sh))))
         = sent sh ++ [msg_id event]).
Proof.
  intros H.
  specialize (H (calm 200) photo_message (sample_forwarder false) sample_shared
                (mkClient true true) ltac:(vm_compute; reflexivity) eq_refl eq_refl).
  vm_compute in H. discriminate H.
Qed.

(** C4, amended. A message that passes the filter reaches
    [forward_messages] exactly when it carries no media or
    [forward_media] is on; a message with media is not forwarded while
    the flag is off. *)
Theorem forwarded_unless_media_suppressed (lower : pystr → pystr) env event self sh c :
  should_forward lower (keywords self) (or_empty (text event)) = true →
  client self = Some c →
  forward_raises env = None →
  sent (snd (fst (message_handler lower env event (self, sh)))) =
    if forward_media self || negb (obj_truthy (media event))
    then sent sh ++ [msg_id event]
    else sent sh.
Proof.
  intros Hshould Hclient Hfwd.
  destruct self as [? ? ? ? ? kws fm ? cl ? ? ? dbs st], sh as [db d snt lg].
  simpl in *. subst cl.
  run_m. rewrite Hshould, Hfwd. simpl.
  destruct fm, (media event), db; destruct_session dbs;
    destruct (commit_raises env); reflexivity.
Qed.

Lemma forwarded_unless_media_suppressed_witness :
  should_forward ascii_lower (keywords (sample_forwarder false))
    (or_empty (text photo_message)) = true ∧
  sent (snd (fst (message_handler ascii_lower (calm 200) photo_message
                    (sample_forwarder false, sample_shared)))) = [] ∧
  sent (snd (fst (message_handler ascii_lower (calm 200) photo_message
                    (sample_forwarder true, sample_shared)))) = [8].
Proof.
  split; [vm_compute; reflexivity|]. split.
  - apply (forwarded_unless_media_suppressed ascii_lower (calm 200) photo_message
             (sample_forwarder false) sample_shared (mkClient true true));
      [vm_compute; reflexivity | reflexivity | reflexivity].
  - apply (forwarded_unless_media_suppressed ascii_lower (calm 200) photo_message
             (sample_forwarder true) sample_shared (mkClient true true));
      [vm_compute; reflexivity | reflexivity | reflexivity].
Defined.

(** ** Persistence failures *)

Lemma _log_error_returns env error_type error_message stack_trace s :
  snd (_log_error env error_type error_message stack_trace s) = inr tt
  ∧ fst (fst (_log_error env error_type error_message stack_trace s)) = fst s.
Proof.
  destruct s as [self [db d snt lg]]. run_m.
  by destruct db, (error_commit_raises env).
Qed.

Lemma _log_forwarded_message_returns lower env event flag s :
  snd (_log_forwarded_message lower env event flag s) = inr tt.
Proof.
  destruct s as [[? ? ? ? ? ? ? ? ? ? ? ? dbs ?] [db d snt lg]]. run_m.
  destruct db; destruct_session dbs; by destruct (commit_raises env).
Qed.

Lemma _create_db_session_returns env s : snd (_create_db_session env s) = inr tt.
Proof.
  destruct s as [[? ? ? ? ? ? ? ? ? ? ? ? dbs ?] [db d snt lg]]. run_m.
  destruct db; [|done]. simpl.
  by destruct (session_id_taken _ _), (commit_raises env).
Qed.

Lemma message_handler_returns lower env event s :
  snd (message_handler lower env event s) = inr tt.
Proof.
  destruct s as [[? ? ? ? ? kws fm ? cl ? ? ? dbs ?] [db d snt lg]]. run_m.
  destruct (should_forward lower kws (or_empty (text event))); [|done]. simpl.
  destruct cl; [|done]. simpl.
  destruct fm, (media event), (forward_raises env), db; destruct_session dbs;
    destruct (commit_raises env), (error_commit_raises env); reflexivity.
Qed.

(** [stop_forwarding] raises what [client.disconnect()] raises and
    nothing else, clears [running], and writes to no table. *)
Lemma stop_forwarding_result env self sh :
  snd (stop_forwarding env (self, sh))
    = match client self, disconnect_raises env with
      | Some _, Some e => inl e
      | _, _ => inr tt
      end ∧
  running (fst (fst (stop_forwarding env (self, sh)))) = false ∧
  store (snd (fst (stop_forwarding env (self, sh)))) = store sh.
Proof.
  destruct self as [? ? ? ? ? ? ? ? cl ? ? ? dbs ?], sh as [db d snt lg].
  run_m.
  by destruct dbs, db, (commit_raises env), cl as [[? ?]|], (disconnect_raises env).
Qed.

(** C6. With the database available and every commit raising, each of
    the three writers returns normally, leaves the tables as they were
    and adds one diagnostic line to the local log; [message_handler]
    returns normally, leaves the tables as they were and, the forward
    itself not raising, records no handling error; [stop_forwarding]
    raises nothing but what [client.disconnect()] raises; and a forwarder
    that is authenticated and has its chats still reaches
    [run_until_disconnected] with [running] set. *)
Theorem persistence_failure_swallowed (lower : pystr → pystr) env event flag
    error_type error_message stack_trace self sh e1 e2 :
  database sh = true →
  commit_raises env = Some e1 →
  error_commit_raises env = Some e2 →
  (∃ e self',
     _log_forwarded_message lower env event flag (self, sh) =
       ((self', with_log (log sh ++ [LogError (py "Failed to log forwarded message: "
                                                ++ str_exn e)]) sh), inr tt)) ∧
  _log_error env error_type error_message stack_trace (self, sh) =
    ((self, with_log (log sh ++ [LogError (py "Failed to log error to database: "
                                             ++ str_exn e2)]) sh), inr tt) ∧
  (∃ e self',
     _create_db_session env (self, sh) =
       ((self', with_log (log sh ++ [LogError (py "Failed to create database session: "
                                                 ++ str_exn e)]) sh), inr tt)) ∧
  snd (message_handler lower env event (self, sh)) = inr tt ∧
  store (snd (fst (message_handler lower env event (self, sh)))) = store sh ∧
  (forward_raises env = None →
     Stats.errors (stats (fst (fst (message_handler lower env event (self, sh)))))
       = Stats.errors (stats self)) ∧
  snd (stop_forwarding env (self, sh))
    = match client self, disconnect_raises env with
      | Some _, Some e => inl e
      | _, _ => inr tt
      end ∧
  store (snd (fst (stop_forwarding env (self, sh)))) = store sh ∧
  (obj_truthy (client self) = true → authenticated self = true →
   opt_truthy (source_chat self) = true →
   opt_truthy (destination_chat self) = true →
   get_entity_raises env = None →
     snd (start_forwarding env (self, sh)) = inr Blocked ∧
     running (fst (fst (start_forwarding env (self, sh)))) = true ∧
     store (snd (fst (start_forwarding env (self, sh)))) = store sh).
Proof.
  intros Hdb Hc He.
  pose proof (stop_forwarding_result env self sh) as (Hstop & _ & Hstore).
  destruct self as [? ? ? src dst kws fm ? cl auth ? ? dbs ?], sh as [db d snt lg].
  simpl in *. subst db.
  split_and!.
  - run_m. rewrite Hc. destruct e1 as [m1].
    destruct_session dbs; simpl; by eexists (Exception _), _.
  - run_m. by rewrite He.
  - run_m. rewrite Hc. destruct e1 as [m1].
    destruct (session_id_taken _ _); simpl; by eexists (Exception _), _.
  - apply message_handler_returns.
  - run_m. destruct (should_forward lower kws (or_empty (text event))); [|done]. simpl.
    destruct cl; [|done]. simpl. rewrite Hc, He.
    destruct fm, (media event), (forward_raises env); by destruct_session dbs.
  - intros Hf. run_m.
    destruct (should_forward lower kws (or_empty (text event))); [|done]. simpl.
    destruct cl; [|done]. simpl. rewrite Hc, Hf.
    destruct fm, (media event); by destruct_session dbs.
  - exact Hstop.
  - exact Hstore.
  - intros Hcl Hauth Hsrc Hdst Hent. subst auth. destruct cl; [|done].
    run_m. rewrite Hsrc, Hdst, Hent. run_m. rewrite Hc.
    by destruct (session_id_taken _ _).
Qed.

Lemma persistence_failure_swallowed_witness :
  database sample_shared = true ∧
  commit_raises (commits_fail 200) = Some (Exception (py "OperationalError")) ∧
  error_commit_raises (commits_fail 200) = Some (Exception (py "OperationalError")) ∧
  snd (message_handler ascii_lower (commits_fail 200) text_message
         (sample_forwarder true, sample_shared)) = inr tt ∧
  store (snd (fst (message_handler ascii_lower (commits_fail 200) text_message
                     (sample_forwarder true, sample_shared)))) = store sample_shared.
Proof.
  split; [reflexivity|]. split; [reflexivity|]. split; [reflexivity|].
  pose proof (persistence_failure_swallowed ascii_lower (commits_fail 200) text_message true
                (py "forwarding") (py "boom") None (sample_forwarder true) sample_shared
                _ _ eq_refl eq_refl eq_refl) as (_ & _ & _ & Hret & Hstore & _).
  split; [exact Hret | exact Hstore].
Defined.

(** ** The dashboard *)

#[global] Instance newer_first_trans : Transitive newer_first.
Proof. unfold newer_first. intros a b c Hab Hbc. lia. Qed.

#[global] Instance newer_first_total : Total newer_first.
Proof. unfold newer_first. intros a b. lia. Qed.

Lemma display_text_stored (T : pystr) :
  ForwardedMessage.display_text (Some (take 1000 (or_empty (Some T)))) =
  Some (if 100 <? Z.of_nat (length T) then take 100 T ++ py "..." else T).
Proof.
  assert (Hor : or_empty (Some T) = T) by (by destruct T).
  rewrite Hor. unfold ForwardedMessage.display_text. rewrite length_take.
  destruct (100 <? Z.of_nat (length T)) eqn:Hlong.
  - apply Z.ltb_lt in Hlong.
    replace (str_truthy (take 1000 T)) with true
      by (destruct T; [simpl in Hlong; lia | reflexivity]).
    replace (100 <? Z.of_nat (1000 `min` length T)) with true
      by (symmetry; apply Z.ltb_lt; lia).
    cbn [andb]. by rewrite take_take.
  - apply Z.ltb_ge in Hlong.
    replace (100 <? Z.of_nat (1000 `min` length T)) with false
      by (symmetry; apply Z.ltb_ge; lia).
    rewrite andb_false_r, take_ge by lia. reflexivity.
Qed.

(** A query whose limit covers the table shows every stored message. *)
Lemma stored_message_shown limit sh m :
  database sh = true →
  (length (forwarded_messages (store sh)) ≤ limit)%nat →
  m ∈ forwarded_messages (store sh) →
  ∃ messages total,
    get_forwarded_messages None limit sh = inr (messages, total) ∧
    ForwardedMessage.to_dict m ∈ messages.
Proof.
  intros Hdb Hlimit Hm. unfold get_forwarded_messages, query_recent. rewrite Hdb. simpl.
  do 2 eexists. split; [reflexivity|].
  apply list_elem_of_fmap_2. rewrite take_ge.
  - by rewrite merge_sort_Permutation.
  - by rewrite merge_sort_Permutation.
Qed.

(** C7. A forwarded message written with text [T] comes back from the
    messages endpoint with its text cut to 100 characters followed by
    "..." when [T] is longer than 100 characters (1500, say), and with
    [T] itself otherwise. The record is written by a forwarder that holds
    no session object, the one on which the write goes through; the
    commit succeeds, and the limit of the query covers the table. The
    same holds of every stored record that carries the first 1000
    characters of [T], whatever wrote it. *)
Theorem display_truncation_round_trip (lower : pystr → pystr) env event flag self sh T limit :
  text event = Some T →
  database sh = true →
  commit_raises env = None →
  db_session self = None →
  (length (forwarded_messages (store sh)) < limit)%nat →
  let sh' := snd (fst (_log_forwarded_message lower env event flag (self, sh))) in
  let written :=
    ForwardedMessage.with_id (S (length (forwarded_messages (store sh))))
      (forwarded_msg lower self env event flag) in
  let shown := Some (if 100 <? Z.of_nat (length T) then take 100 T ++ py "..." else T) in
  forwarded_messages (store sh') = forwarded_messages (store sh) ++ [written] ∧
  (∃ messages total,
     get_forwarded_messages None limit sh' = inr (messages, total) ∧
     ForwardedMessage.to_dict written ∈ messages ∧
     ForwardedMessage.message_text (ForwardedMessage.to_dict written) = shown) ∧
  ∀ sh0 m,
    database sh0 = true →
    (length (forwarded_messages (store sh0)) ≤ limit)%nat →
    m ∈ forwarded_messages (store sh0) →
    ForwardedMessage.message_text m = Some (take 1000 T) →
    ∃ messages total,
      get_forwarded_messages None limit sh0 = inr (messages, total) ∧
      ForwardedMessage.to_dict m ∈ messages ∧
      ForwardedMessage.message_text (ForwardedMessage.to_dict m) = shown.
Proof.
  intros Htext Hdb Hcommit Hnone Hlimit sh' written shown.
  assert (Hor : or_empty (Some T) = T) by (by destruct T).
  assert (Hwrite : database sh' = true ∧
                   forwarded_messages (store sh') = forwarded_messages (store sh) ++ [written]).
  { subst sh' written.
    destruct self as [? ? ? ? ? ? ? ? ? ? ? ? dbs ?], sh as [db d snt lg].
    simpl in *. subst db dbs. run_m. by rewrite Hcommit. }
  destruct Hwrite as [Hdb' Hrows]. split_and!; [exact Hrows | |].
  - destruct (stored_message_shown limit sh' written Hdb') as (messages & total & Hget & Hin).
    + rewrite Hrows, length_app. simpl. lia.
    + rewrite Hrows. apply elem_of_app. right. by apply list_elem_of_singleton.
    + exists messages, total. split_and!; [done | done |].
      subst written shown. unfold forwarded_msg. simpl. rewrite Htext.
      apply display_text_stored.
  - intros sh0 m Hdb0 Hlimit0 Hm Htxt.
    destruct (stored_message_shown limit sh0 m Hdb0 Hlimit0 Hm)
      as (messages & total & Hget & Hin).
    exists messages, total. split_and!; [done | done |].
    subst shown. simpl. rewrite Htxt. rewrite <- Hor at 1. apply display_text_stored.
Qed.

Lemma display_truncation_round_trip_witness :
  text long_message = Some (replicate 1500 97%N) ∧
  db_session (fresh_forwarder (py "20250101_000000")) = None ∧
  (length (forwarded_messages (store empty_shared)) < 50)%nat ∧
  ∃ messages total,
    get_forwarded_messages None 50
      (snd (fst (_log_forwarded_message ascii_lower (calm 200) long_message true
                   (fresh_forwarder (py "20250101_000000"), empty_shared))))
    = inr (messages, total) ∧
    ForwardedMessage.to_dict
      (ForwardedMessage.with_id 1
         (forwarded_msg ascii_lower (fresh_forwarder (py "20250101_000000")) (calm 200)
            long_message true))
      ∈ messages ∧
    ForwardedMessage.message_text
      (ForwardedMessage.to_dict
         (ForwardedMessage.with_id 1
            (forwarded_msg ascii_lower (fresh_forwarder (py "20250101_000000")) (calm 200)
               long_message true)))
    = Some (if 100 <? Z.of_nat (length (replicate 1500 97%N))
            then take 100 (replicate 1500 97%N) ++ py "..."
            else replicate 1500 97%N).
Proof.
  split; [reflexivity|]. split; [reflexivity|]. split; [simpl; lia|].
  pose proof (display_truncation_round_trip ascii_lower (calm 200) long_message true
                (fresh_forwarder (py "20250101_000000")) empty_shared
                (replicate 1500 97%N) 50 eq_refl eq_refl eq_refl eq_refl
                ltac:(simpl; lia)) as (_ & Hshown & _).
  exact Hshown.
Defined.

(** The claim C8 as the spec words it: the reply carries the count of
    the stored forwarded messages. *)
Lemma messages_total_counterexample :
  ¬ (∀ limit sh messages total,
       get_forwarded_messages None limit sh = inr (messages, total) →
       total = length (forwarded_messages (store sh))).
Proof.
  intros H. specialize (H 2%nat three_messages _ _ eq_refl).
  vm_compute in H. discriminate H.
Qed.

(** C8, amended. With the database available, the messages endpoint
    answers the [limit] most recent forwarded messages, newest first, and
    as ['total'] the number of messages it answers, which is the smaller
    of [limit] and the number of stored messages. *)
Theorem get_forwarded_messages_recent limit sh :
  database sh = true →
  ∃ recent older : list ForwardedMessage.t,
    get_forwarded_messages None limit sh
      = inr (ForwardedMessage.to_dict <$> recent, length recent) ∧
    recent ++ older ≡ₚ forwarded_messages (store sh) ∧
    length recent = (limit `min` length (forwarded_messages (store sh)))%nat ∧
    StronglySorted newer_first recent ∧
    (∀ a b, a ∈ recent → b ∈ older →
            ForwardedMessage.forwarded_at b ≤ ForwardedMessage.forwarded_at a) ∧
    ForwardedMessage.forwarded_at <$> (ForwardedMessage.to_dict <$> recent)
      = ForwardedMessage.forwarded_at <$> recent.
Proof.
  intros Hdb.
  pose proof (StronglySorted_merge_sort newer_first (forwarded_messages (store sh))) as Hsorted.
  pose proof (merge_sort_Permutation newer_first (forwarded_messages (store sh))) as Hperm.
  exists (take limit (merge_sort newer_first (forwarded_messages (store sh)))),
         (drop limit (merge_sort newer_first (forwarded_messages (store sh)))).
  rewrite <- (take_drop limit (merge_sort newer_first _)) in Hsorted.
  repeat split.
  - unfold get_forwarded_messages, query_recent. by rewrite Hdb.
  - by rewrite take_drop.
  - by rewrite length_take, Hperm.
  - by apply StronglySorted_app_1_l in Hsorted.
  - intros a b Ha Hb. by apply (StronglySorted_app_1_elem_of _ _ _ a b) in Hsorted.
  - rewrite <- list_fmap_compose. by apply list_fmap_ext.
Qed.

Lemma get_forwarded_messages_recent_witness :
  database three_messages = true ∧
  ∃ recent older : list ForwardedMessage.t,
    get_forwarded_messages None 2 three_messages
      = inr (ForwardedMessage.to_dict <$> recent, length recent) ∧
    recent ++ older ≡ₚ forwarded_messages (store three_messages) ∧
    length recent = (2 `min` length (forwarded_messages (store three_messages)))%nat ∧
    StronglySorted newer_first recent ∧
    (∀ a b, a ∈ recent → b ∈ older →
            ForwardedMessage.forwarded_at b ≤ ForwardedMessage.forwarded_at a) ∧
    ForwardedMessage.forwarded_at <$> (ForwardedMessage.to_dict <$> recent)
      = ForwardedMessage.forwarded_at <$> recent.
Proof.
  split; [reflexivity|].
  apply (get_forwarded_messages_recent 2 three_messages). reflexivity.
Defined.


(** ** Keywords read from the environment *)

Section StripFacts.
Variable isspace : codepoint → bool.

Lemma lstrip_suffix s :
  ∃ sp, s = sp ++ lstrip isspace s ∧ Forall (λ c, isspace c = true) sp.
Proof.
  induction s as [|c s IH]; [by exists []|]. simpl.
  destruct (isspace c) eqn:Hc.
  - destruct IH as (sp & Hs & Hsp). exists (c :: sp). split; [by rewrite Hs at 1|].
    by constructor.
  - by exists [].
Qed.

Lemma lstrip_head s c : head (lstrip isspace s) = Some c → isspace c = false.
Proof.
  induction s as [|a s IH]; [done|]. simpl.
  destruct (isspace a) eqn:Ha; [done|]. simpl. by intros [= <-].
Qed.

Lemma lstrip_id s :
  match head s with Some c => isspace c = false | None => True end →
  lstrip isspace s = s.
Proof. destruct s as [|c s]; [done|]. simpl. by intros ->. Qed.

Lemma rstrip_prefix s :
  ∃ sp, s = rstrip isspace s ++ sp ∧ Forall (λ c, isspace c = true) sp.
Proof.
  unfold rstrip. destruct (lstrip_suffix (reverse s)) as (sp & Hs & Hsp).
  exists (reverse sp). split.
  - rewrite <- reverse_app, <- Hs. by rewrite reverse_involutive.
  - by apply Forall_reverse.
Qed.

Lemma rstrip_last s c : last (rstrip isspace s) = Some c → isspace c = false.
Proof. unfold rstrip. rewrite last_reverse. apply lstrip_head. Qed.

Lemma rstrip_id s :
  match last s with Some c => isspace c = false | None => True end →
  rstrip isspace s = s.
Proof.
  intros Hl. unfold rstrip. rewrite lstrip_id; [apply reverse_involutive|].
  by rewrite head_reverse.
Qed.

Lemma rstrip_head s c :
  head s = Some c → isspace c = false → head (rstrip isspace s) = Some c.
Proof.
  intros Hh Hc. destruct (rstrip_prefix s) as (sp & Hs & Hsp).
  destruct (rstrip isspace s) as [|a r] eqn:Hr.
  - simpl in Hs. subst sp. destruct s as [|a s]; [done|].
    simpl in Hh. injection Hh as ->. apply Forall_cons in Hsp as [Ha _]. congruence.
  - rewrite Hs in Hh. exact Hh.
Qed.

(** A stripped string that is not empty begins and ends with a character
    that is not white space. *)
Lemma strip_ends s c :
  (head (strip isspace s) = Some c ∨ last (strip isspace s) = Some c) →
  isspace c = false.
Proof.
  unfold strip. intros [Hh | Hl]; [|by eapply rstrip_last].
  destruct (lstrip isspace s) as [|a r] eqn:Hs; [done|].
  assert (Ha : isspace a = false) by (apply (lstrip_head s); by rewrite Hs).
  rewrite (rstrip_head (a :: r) a eq_refl Ha) in Hh. by injection Hh as <-.
Qed.

Lemma strip_idempotent s : strip isspace (strip isspace s) = strip isspace s.
Proof.
  unfold strip at 1. rewrite lstrip_id, rstrip_id; [done| |].
  - destruct (last (strip isspace s)) as [c|] eqn:Hl; [|done]. apply (strip_ends s). eauto.
  - destruct (head (strip isspace s)) as [c|] eqn:Hh; [|done]. apply (strip_ends s). eauto.
Qed.

Lemma strip_sublist s c : c ∈ strip isspace s → c ∈ s.
Proof.
  unfold strip. intros Hc.
  destruct (rstrip_prefix (lstrip isspace s)) as (sp & Hs & _).
  destruct (lstrip_suffix s) as (sp' & Hs' & _).
  rewrite Hs', Hs. rewrite !elem_of_app. auto.
Qed.
End StripFacts.

Lemma split_no_sep sep s : Forall (λ p, sep ∉ p) (split sep s).
Proof.
  induction s as [|c s IH]; simpl.
  - constructor; [apply not_elem_of_nil | constructor].
  - destruct (N.eqb_spec c sep) as [->|Hne].
    + constructor; [apply not_elem_of_nil | exact IH].
    + destruct (split sep s) as [|p ps].
      { constructor; [|constructor]. intros Hc%list_elem_of_singleton. congruence. }
      apply Forall_cons in IH as [Hp Hps]. constructor; [|done].
      rewrite not_elem_of_cons. split; [congruence | done].
Qed.

Lemma split_piece sep p : sep ∉ p → split sep p = [p].
Proof.
  induction p as [|c p IH]; [done|]. intros Hc. simpl.
  apply not_elem_of_cons in Hc as [Hne Hp].
  destruct (N.eqb_spec c sep) as [->|_]; [done|]. by rewrite IH.
Qed.

Lemma split_app_sep sep p r : sep ∉ p → split sep (p ++ sep :: r) = p :: split sep r.
Proof.
  induction p as [|c p IH]; intros Hc; simpl.
  - by rewrite N.eqb_refl.
  - apply not_elem_of_cons in Hc as [Hne Hp].
    destruct (N.eqb_spec c sep) as [->|_]; [done|]. by rewrite IH.
Qed.

Lemma split_join sep (l : list pystr) :
  l ≠ [] → Forall (λ p, sep ∉ p) l → split sep (join [sep] l) = l.
Proof.
  induction l as [|p l IH]; [done|]. intros _ Hl.
  apply Forall_cons in Hl as [Hp Hl]. destruct l as [|q l].
  - simpl. by apply split_piece.
  - change (join [sep] (p :: q :: l)) with (p ++ sep :: join [sep] (q :: l)).
    rewrite split_app_sep by done. f_equal. by apply IH.
Qed.

Lemma parse_keywords_forall_clean (isspace : codepoint → bool) (keywords_str : pystr) :
  Forall (λ k, k ≠ [] ∧
               isspace (default 0%N (head k)) = false ∧
               isspace (default 0%N (last k)) = false ∧
               comma ∉ k)
    (_parse_keywords isspace keywords_str).
Proof.
  unfold _parse_keywords.
  destruct (str_truthy keywords_str); [|constructor].
  apply Forall_forall. intros k Hk.
  apply list_elem_of_In, filter_In in Hk as [Hk Hne].
  apply list_elem_of_In, list_elem_of_fmap in Hk as (p & -> & Hp).
  split_and!.
  - intros Hnil. by rewrite Hnil in Hne.
  - destruct (head (strip isspace p)) as [c|] eqn:Hh.
    + apply (strip_ends isspace p). left. unfold codepoint in *. by rewrite Hh.
    + apply head_None in Hh. by rewrite Hh in Hne.
  - destruct (last (strip isspace p)) as [c|] eqn:Hl.
    + apply (strip_ends isspace p). right. unfold codepoint in *. by rewrite Hl.
    + apply last_None in Hl. by rewrite Hl in Hne.
  - intros Hc. apply strip_sublist in Hc.
    pose proof (split_no_sep comma keywords_str) as Hs.
    rewrite Forall_forall in Hs. by apply (Hs p).
Qed.

(** X1. Every keyword read from [KEYWORDS] is non-empty, begins and ends
    with a character that is not white space, and holds no comma; an
    empty string gives no keyword. *)
Theorem parse_keywords_clean (isspace : codepoint → bool) (keywords_str : pystr) :
  _parse_keywords isspace [] = [] ∧
  Forall (λ k, k ≠ [] ∧
               isspace (default 0%N (head k)) = false ∧
               isspace (default 0%N (last k)) = false ∧
               comma ∉ k)
    (_parse_keywords isspace keywords_str).
Proof. split; [done | apply parse_keywords_forall_clean]. Qed.

Lemma filter_strip_clean (isspace : codepoint → bool) (l : list pystr) :
  Forall (λ k, k ≠ [] ∧
               isspace (default 0%N (head k)) = false ∧
               isspace (default 0%N (last k)) = false ∧
               comma ∉ k) l →
  List.filter str_truthy (strip isspace <$> l) = l.
Proof.
  induction 1 as [|a l' (Ha & Hh & Hl & _) _ IH]; [done|].
  assert (Hstrip : strip isspace a = a).
  { unfold strip. unfold codepoint in *. rewrite lstrip_id, rstrip_id; [done| |].
    - unfold codepoint in *. revert Hl. destruct (last a); [exact (λ H, H) | done].
    - unfold codepoint in *. revert Hh. destruct (head a); [exact (λ H, H) | done]. }
  simpl. rewrite Hstrip. destruct a; [done|]. simpl. by f_equal.
Qed.

(** X2. The keyword list survives the [keywords] column of a session:
    joined with commas as [_create_db_session] stores it and read again,
    it is the same list. *)
Theorem parse_keywords_join_round_trip (isspace : codepoint → bool) (keywords_str : pystr) :
  _parse_keywords isspace (join (py ",") (_parse_keywords isspace keywords_str))
  = _parse_keywords isspace keywords_str.
Proof.
  pose proof (parse_keywords_forall_clean isspace keywords_str) as Hclean.
  revert Hclean. generalize (_parse_keywords isspace keywords_str). intros l Hl.
  destruct l as [|k l]; [done|].
  assert (Hjoin : str_truthy (join (py ",") (k :: l)) = true).
  { apply Forall_cons in Hl as [(Hk & _) _].
    destruct k as [|c k]; [done|]. by destruct l. }
  unfold _parse_keywords. rewrite Hjoin.
  change (py ",") with [comma]. rewrite split_join.
  - by apply filter_strip_clean.
  - done.
  - eapply Forall_impl; [exact Hl|]. by intros a (_ & _ & _ & Ha).
Qed.

(** ** When the filter is off *)

Lemma lstrip_nil isspace s :
  lstrip isspace s = [] ↔ Forall (λ c, isspace c = true) s.
Proof.
  induction s as [|c s IH]; [by split|]. simpl. destruct (isspace c) eqn:Hc.
  - rewrite IH. split; [by constructor | by intros [_ H]%Forall_cons].
  - split; [done | intros [H _]%Forall_cons; congruence].
Qed.

Lemma strip_nil isspace s :
  strip isspace s = [] ↔ Forall (λ c, isspace c = true) s.
Proof.
  split.
  - intros Hs. unfold strip in Hs.
    destruct (rstrip_prefix isspace (lstrip isspace s)) as (sp & Hx & Hsp).
    destruct (lstrip_suffix isspace s) as (sp' & Hp & Hsp').
    rewrite Hs in Hx. simpl in Hx. rewrite Hp, Hx. by apply Forall_app.
  - intros Hs. unfold strip. apply lstrip_nil in Hs. by rewrite Hs.
Qed.

Lemma split_piece_chars sep s p c : p ∈ split sep s → c ∈ p → c ∈ s.
Proof.
  revert p. induction s as [|a s IH]; intros p; simpl.
  - intros ->%list_elem_of_singleton. by intros ?%elem_of_nil.
  - destruct (N.eqb_spec a sep) as [->|Hne].
    + intros [->|Hp]%elem_of_cons; [by intros ?%elem_of_nil|].
      intros Hc. right. by apply (IH p).
    + destruct (split sep s) as [|q qs] eqn:Hq.
      * intros ->%list_elem_of_singleton. by intros ->%list_elem_of_singleton; left.
      * intros [->|Hp]%elem_of_cons.
        -- intros [->|Hc]%elem_of_cons; [by left|]. right. apply (IH q); [by left|done].
        -- intros Hc. right. apply (IH p); [by right|done].
Qed.

Lemma split_covers sep s c : c ∈ s → c = sep ∨ ∃ p, p ∈ split sep s ∧ c ∈ p.
Proof.
  induction s as [|a s IH]; [by intros ?%elem_of_nil|]. simpl.
  destruct (N.eqb_spec a sep) as [->|Hne].
  - intros [->|Hc]%elem_of_cons; [by left|].
    destruct (IH Hc) as [->|(p & Hp & Hcp)]; [by left|]. right. exists p. split; [by right|done].
  - destruct (split sep s) as [|q qs] eqn:Hq.
    + intros [->|Hc]%elem_of_cons.
      * right. exists [a]. split; by left.
      * destruct (IH Hc) as [->|(p & Hp & _)]; [by left | by apply elem_of_nil in Hp].
    + intros [->|Hc]%elem_of_cons.
      * right. exists (a :: q). split; by left.
      * destruct (IH Hc) as [->|(p & [->|Hp]%elem_of_cons & Hcp)]; [by left| |].
        -- right. exists (a :: q). split; [by left | by right].
        -- right. exists p. split; [by right | done].
Qed.

Lemma List_filter_nil {A} (f : A → bool) (l : list A) :
  List.filter f l = [] ↔ Forall (λ a, f a = false) l.
Proof.
  induction l as [|a l IH]; [by split|]. simpl. destruct (f a) eqn:Ha.
  - split; [done | intros [H _]%Forall_cons; congruence].
  - rewrite IH. split; [by constructor | by intros [_ H]%Forall_cons].
Qed.

(** X20. Filtering is off, so that every message passes, exactly when
    [KEYWORDS] holds nothing but commas and white space. *)
Theorem no_keywords_iff (lower : pystr → pystr) (isspace : codepoint → bool)
    (keywords_str : pystr) :
  (_parse_keywords isspace keywords_str = [] ↔
   Forall (λ c, c = comma ∨ isspace c = true) keywords_str) ∧
  (∀ message_text,
     should_forward lower (_parse_keywords isspace keywords_str) message_text
     = if bool_decide (_parse_keywords isspace keywords_str = [])
       then true
       else any_keyword lower (_parse_keywords isspace keywords_str) message_text).
Proof.
  split; [|intros T; by destruct (_parse_keywords isspace keywords_str)].
  unfold _parse_keywords. destruct (str_truthy keywords_str) eqn:Ht;
    [|by destruct keywords_str].
  rewrite List_filter_nil, Forall_fmap. split.
  - intros Hall. apply Forall_forall. intros c Hc.
    destruct (split_covers comma keywords_str c Hc) as [->|(p & Hp & Hcp)]; [by left|].
    right. rewrite Forall_forall in Hall. specialize (Hall p Hp). unfold compose in Hall.
    assert (Hnil : strip isspace p = []) by (by destruct (strip isspace p)).
    apply strip_nil in Hnil. rewrite Forall_forall in Hnil. by apply Hnil.
  - intros Hall. apply Forall_forall. intros p Hp. unfold compose.
    assert (Hnil : strip isspace p = []); [|by rewrite Hnil].
    apply strip_nil, Forall_forall. intros c Hc.
    rewrite Forall_forall in Hall.
    destruct (Hall c (split_piece_chars comma keywords_str p c Hp Hc)) as [->|Hsp]; [|done].
    pose proof (split_no_sep comma keywords_str) as Hno.
    rewrite Forall_forall in Hno. by destruct (Hno p Hp).
Qed.


(** ** More on the handling of one message *)

(** X3. A message that does not pass the keyword filter is counted as
    received and leaves no other trace: nothing is forwarded, stored or
    logged, and the forwarded counter and the error list stay as they
    were. *)
Theorem filtered_message_only_counted (lower : pystr → pystr) env event self sh :
  should_forward lower (keywords self) (or_empty (text event)) = false →
  message_handler lower env event (self, sh)
  = ((with_stats (Stats.received (now env) (stats self)) self, sh), inr tt).
Proof.
  intros Hshould. destruct self, sh. simpl in *. run_m. by rewrite Hshould.
Qed.

Lemma filtered_message_only_counted_witness :
  should_forward ascii_lower (keywords (sample_forwarder true))
    (or_empty (text (mkMessage 5 (Some (py "No discounts")) None))) = false ∧
  message_handler ascii_lower (calm 200) (mkMessage 5 (Some (py "No discounts")) None)
    (sample_forwarder true, sample_shared)
  = ((with_stats (Stats.received (now (calm 200)) (stats (sample_forwarder true)))
        (sample_forwarder true), sample_shared), inr tt).
Proof.
  split; [vm_compute; reflexivity|].
  apply (filtered_message_only_counted ascii_lower (calm 200)
           (mkMessage 5 (Some (py "No discounts")) None) (sample_forwarder true) sample_shared).
  vm_compute. reflexivity.
Defined.

Lemma should_forward_filter lower keywords message_text :
  should_forward lower keywords message_text = true →
  keywords = [] ∨
  ∃ k, In k keywords ∧ substring (lower k) (lower message_text).
Proof.
  destruct keywords as [|k0 kws]; [by left|]. intros Hany. right.
  unfold should_forward, any_keyword in Hany.
  apply existsb_exists in Hany as (k & Hin & Hk). exists k. by rewrite <- str_in_spec.
Qed.

Lemma List_filter_sublist {A} (f : A → bool) (l : list A) : sublist (List.filter f l) l.
Proof.
  induction l as [|a l IH]; [constructor|]. simpl.
  destruct (f a); by constructor.
Qed.

Lemma matched_of_spec lower keywords message_text k :
  In k (matched_of lower keywords message_text) ↔
  In k keywords ∧ substring (lower k) (lower message_text).
Proof. unfold matched_of. by rewrite filter_In, str_in_spec. Qed.

(** X4. With keywords configured, the row of a message that passed the
    filter names its matches: [keywords_matched] is the comma-joined list
    of exactly the configured keywords found in the text, in their
    configured order, and that list is not empty. *)
Theorem keywords_matched_names_the_matches (lower : pystr → pystr) env event self :
  keywords self ≠ [] →
  should_forward lower (keywords self) (or_empty (text event)) = true →
  let matched := matched_of lower (keywords self) (or_empty (text event)) in
  ForwardedMessage.keywords_matched (forwarded_msg lower self env event true)
    = Some (join (py ",") matched) ∧
  matched ≠ [] ∧
  sublist matched (keywords self) ∧
  ∀ k, In k matched ↔
       In k (keywords self) ∧ substring (lower k) (lower (or_empty (text event))).
Proof.
  intros Hkw Hshould matched.
  assert (Hne : matched ≠ []).
  { apply should_forward_filter in Hshould as [? | (k & Hk)]; [done|].
    intros Hnil. apply matched_of_spec in Hk. fold matched in Hk. by rewrite Hnil in Hk. }
  split_and!.
  - unfold forwarded_msg. cbn [ForwardedMessage.keywords_matched andb].
    assert (Htruthy : list_truthy (keywords self) = true) by (by destruct (keywords self)).
    rewrite Htruthy. fold matched. by destruct matched.
  - done.
  - apply List_filter_sublist.
  - intros k. apply matched_of_spec.
Qed.

Lemma keywords_matched_names_the_matches_witness :
  keywords (sample_forwarder true) ≠ [] ∧
  should_forward ascii_lower (keywords (sample_forwarder true))
    (or_empty (text text_message)) = true ∧
  ForwardedMessage.keywords_matched
    (forwarded_msg ascii_lower (sample_forwarder true) (calm 200) text_message true)
  = Some (join (py ",")
            (matched_of ascii_lower (keywords (sample_forwarder true))
               (or_empty (text text_message)))).
Proof.
  split; [done|]. split; [vm_compute; reflexivity|].
  apply (keywords_matched_names_the_matches ascii_lower (calm 200) text_message
           (sample_forwarder true)); [done | vm_compute; reflexivity].
Defined.

(** X5. The text of a stored message is the first 1000 characters of the
    message text at most, and the text the dashboard shows is never
    longer than 103 characters. *)
Theorem stored_and_shown_text_bounds (lower : pystr → pystr) env event self flag
    (m : ForwardedMessage.t) :
  ForwardedMessage.message_text (forwarded_msg lower self env event flag)
    = Some (take 1000 (or_empty (text event))) ∧
  (length (take 1000 (or_empty (text event))) ≤ 1000)%nat ∧
  take 1000 (or_empty (text event)) `prefix_of` or_empty (text event) ∧
  (length (default [] (ForwardedMessage.message_text (ForwardedMessage.to_dict m)))
     ≤ 103)%nat.
Proof.
  split_and!.
  - done.
  - rewrite length_take. lia.
  - apply prefix_take.
  - simpl. unfold ForwardedMessage.display_text.
    destruct (ForwardedMessage.message_text m) as [s|]; [|simpl; lia].
    destruct (str_truthy s && (100 <? Z.of_nat (length s))) eqn:Hlong; simpl.
    + rewrite length_app, length_take. change (length (py "...")) with 3%nat. lia.
    + apply andb_false_iff in Hlong as [Hs | Hl].
      * destruct s; [simpl; lia | done].
      * apply Z.ltb_ge in Hl. lia.
Qed.

(** X6. The in-memory error list gets one entry exactly when a forward
    was attempted and raised, and nothing else touches it: a failing
    write to the database adds no entry. *)
Theorem errors_grow_with_failed_forwards (lower : pystr → pystr) env event self sh :
  Stats.errors (stats (fst (fst (message_handler lower env event (self, sh)))))
  = Stats.errors (stats self) ++
    match forward_raises env with
    | Some e =>
        if should_forward lower (keywords self) (or_empty (text event))
           && obj_truthy (client self)
           && (forward_media self || negb (obj_truthy (media event)))
        then [(now env, py "Error forwarding message: " ++ str_exn e)]
        else []
    | None => []
    end.
Proof.
  destruct self as [? ? ? ? ? kws fm ? cl ? ? ? dbs st], sh as [db d snt lg].
  run_m.
  destruct (should_forward lower kws (or_empty (text event))); simpl;
    [|by destruct (forward_raises env); rewrite app_nil_r].
  destruct cl; simpl; [|by destruct (forward_raises env); rewrite app_nil_r].
  destruct fm, (media event), (forward_raises env), db; destruct_session dbs;
    destruct (commit_raises env), (error_commit_raises env); simpl;
    by rewrite ?app_nil_r.
Qed.

Lemma handle_all_app lower evs1 evs2 s :
  handle_all lower (evs1 ++ evs2) s = handle_all lower evs2 (handle_all lower evs1 s).
Proof.
  revert s. induction evs1 as [|[env event] evs1 IH]; intros s; [done|]. simpl. apply IH.
Qed.





(** ** Starting a run *)

(** X8. [initialize] answers success exactly when the three credentials
    are present, [client.start] does not raise and the stored session is
    authorized, and only then sets [authenticated]; with a credential
    missing it returns before creating a client and changes nothing. *)
Theorem initialize_outcome env self sh :
  let creds :=
    int_truthy (api_id self) && opt_truthy (api_hash self) && opt_truthy (phone self) in
  let ok :=
    creds && negb (obj_truthy (client_start_raises env)) && is_user_authorized env in
  let r := initialize env (self, sh) in
  (if ok
   then snd r = inr (Success (py "Successfully authenticated with existing session"))
   else ∃ error, snd r = inr (Failure error)) ∧
  authenticated (fst (fst r)) = authenticated self || ok ∧
  (if creds then obj_truthy (client (fst (fst r))) = true else fst r = (self, sh)).
Proof.
  destruct self as [aid ah ph ? ? ? ? ? cl auth ? ? dbs ?], sh as [db d snt lg].
  simpl. run_m.
  destruct (int_truthy aid), (opt_truthy ah), (opt_truthy ph); simpl;
    try (split_and!; [by eexists | by rewrite orb_false_r | done]).
  destruct (client_start_raises env); simpl.
  - destruct db, (error_commit_raises env); simpl;
      (split_and!; [by eexists | by rewrite orb_false_r | done]).
  - destruct (is_user_authorized env); simpl;
      (split_and!; [(done || by eexists) | by rewrite ?orb_true_r, ?orb_false_r | done]).
Qed.

(** X9. A new forwarder reaches [run_until_disconnected] exactly when the
    credentials are present, the client starts and is authorized, both
    chats are configured and resolve. Only then is [running] set and the
    handler registered on a connected client; otherwise the call answers
    a failure, [running] stays false, and no session or message row is
    written. *)
Theorem start_forwarding_outcome env self sh :
  client self = None →
  running self = false →
  db_session self = None →
  let ready :=
    int_truthy (api_id self) && opt_truthy (api_hash self) && opt_truthy (phone self)
    && negb (obj_truthy (client_start_raises env)) && is_user_authorized env
    && opt_truthy (source_chat self) && opt_truthy (destination_chat self)
    && negb (obj_truthy (get_entity_raises env)) in
  let r := start_forwarding env (self, sh) in
  (if ready then snd r = inr Blocked ∧ waiting (fst (fst r))
   else (∃ error, snd r = inr (Returned (Failure error))) ∧
        db_session (fst (fst r)) = None ∧
        bot_sessions (store (snd (fst r))) = bot_sessions (store sh) ∧
        forwarded_messages (store (snd (fst r))) = forwarded_messages (store sh)) ∧
  running (fst (fst r)) = ready.
Proof.
  intros Hcl Hrun Hdbs.
  destruct self as [aid ah ph src dst ? ? ? cl auth ? ? dbs ?], sh as [db d snt lg].
  simpl in *. subst cl dbs. run_m.
  destruct (int_truthy aid); simpl; [|split_and!; eauto].
  destruct (opt_truthy ah); simpl; [|split_and!; eauto].
  destruct (opt_truthy ph); simpl; [|split_and!; eauto].
  destruct (client_start_raises env); simpl.
  { destruct db, (error_commit_raises env); simpl; split_and!; eauto. }
  destruct (is_user_authorized env); simpl; [|split_and!; eauto].
  destruct (opt_truthy src); simpl; [|split_and!; eauto].
  destruct (opt_truthy dst); simpl; [|split_and!; eauto].
  destruct (get_entity_raises env); simpl; [split_and!; eauto|].
  destruct db; simpl; [|by split_and!].
  destruct (session_id_taken _ _), (commit_raises env); simpl; by split_and!.
Qed.

Lemma start_forwarding_outcome_witness :
  client (fresh_forwarder (py "20250101_000000")) = None ∧
  running (fresh_forwarder (py "20250101_000000")) = false ∧
  db_session (fresh_forwarder (py "20250101_000000")) = None ∧
  snd (start_forwarding (calm 100) (fresh_forwarder (py "20250101_000000"), empty_shared))
    = inr Blocked ∧
  waiting (fst (fst (start_forwarding (calm 100)
                       (fresh_forwarder (py "20250101_000000"), empty_shared)))).
Proof.
  split; [reflexivity|]. split; [reflexivity|]. split; [reflexivity|].
  apply (start_forwarding_outcome (calm 100) (fresh_forwarder (py "20250101_000000"))
           empty_shared eq_refl eq_refl eq_refl).
Defined.

(** X10. A run that starts with the database available and the commit
    going through stores exactly one new session: active, not stopped,
    with both counters at 0, stamped with the start time and holding the
    forwarder's configuration. The forwarder is left with the detached
    object of that row, of which no column can be read. When the session
    identifier is already stored (two runs built in the same second) no
    row is added, and the forwarder is left with the object as it was
    constructed: without key, its counters unset. *)
Theorem start_creates_one_active_session env self sh :
  client self = None →
  db_session self = None →
  snd (start_forwarding env (self, sh)) = inr Blocked →
  database sh = true →
  commit_raises env = None →
  let r := start_forwarding env (self, sh) in
  let key := S (length (bot_sessions (store sh))) in
  let kws := match keywords self with [] => None | kws => Some (join (py ",") kws) end in
  let obj :=
    BotSession.mk None (session_id self) (source_chat self) (destination_chat self) kws
      (forward_media self) (delay_seconds self) (utcnow env) None true None None None in
  let row :=
    BotSession.mk (Some key) (session_id self) (source_chat self) (destination_chat self) kws
      (forward_media self) (delay_seconds self) (utcnow env) None true
      (Some 0) (Some 0) (Some (utcnow env)) in
  if session_id_taken (session_id self) (store sh)
  then bot_sessions (store (snd (fst r))) = bot_sessions (store sh) ∧
       db_session (fst (fst r)) = Some (SessionObject.Transient obj)
  else bot_sessions (store (snd (fst r))) = bot_sessions (store sh) ++ [row] ∧
       db_session (fst (fst r)) = Some (SessionObject.Detached key None None).
Proof.
  intros Hcl Hdbs Hblocked Hdb Hc.
  destruct self as [aid ah ph src dst kws ? ? cl auth ? sid dbs ?], sh as [db d snt lg].
  simpl in *. subst cl dbs db. revert Hblocked. run_m.
  destruct (int_truthy aid); simpl; [|done].
  destruct (opt_truthy ah); simpl; [|done].
  destruct (opt_truthy ph); simpl; [|done].
  destruct (client_start_raises env); simpl; [by destruct (error_commit_raises env)|].
  destruct (is_user_authorized env); simpl; [|done].
  destruct (opt_truthy src); simpl; [|done].
  destruct (opt_truthy dst); simpl; [|done].
  destruct (get_entity_raises env); simpl; [done|].
  destruct (session_id_taken sid d); simpl; [done|].
  by rewrite Hc.
Qed.

Lemma start_creates_one_active_session_witness :
  client (fresh_forwarder (py "20250101_000000")) = None ∧
  database empty_shared = true ∧
  BotSession.is_active <$>
    bot_sessions (store (snd (fst (start_forwarding (calm 100)
      (fresh_forwarder (py "20250101_000000"), empty_shared))))) = [true] ∧
  db_session (fst (fst (start_forwarding (calm 100)
    (fresh_forwarder (py "20250101_000000"), empty_shared))))
  = Some (SessionObject.Detached 1 None None).
Proof.
  split; [reflexivity|]. split; [reflexivity|].
  pose proof (start_creates_one_active_session (calm 100)
                (fresh_forwarder (py "20250101_000000")) empty_shared eq_refl eq_refl
                ltac:(vm_compute; reflexivity) eq_refl eq_refl) as H.
  change (session_id_taken (session_id (fresh_forwarder (py "20250101_000000")))
            (store empty_shared)) with false in H.
  destruct H as [Hrows Hobj]. split; [by rewrite Hrows | exact Hobj].
Defined.


(** ** What every reachable state of the process satisfies *)

Lemma tables_ok_insert_error e d :
  tables_ok d → ErrorLog.resolved e = false → tables_ok (insert_error e d).
Proof.
  intros (Hm & Hs & He) Hr. split_and!; [done | done |]. simpl.
  apply Forall_app. split; [done|]. by constructor.
Qed.

Lemma tables_ok_insert_session r d :
  tables_ok d → as_inserted r → tables_ok (insert_session r d).
Proof.
  intros (Hm & Hs & He) Hr. split_and!; [done | | done]. simpl.
  apply Forall_app. split; [done|]. by constructor.
Qed.

Ltac ok_leaf :=
  try done;
  lazymatch goal with
  | |- tables_ok (insert_error _ _) => by apply tables_ok_insert_error
  | |- tables_ok (insert_session _ _) =>
      apply tables_ok_insert_session; [done | by split_and!; try by eexists]
  | |- counters_ok _ => unfold counters_ok in *; simpl in *; lia
  | |- holds_session _ _ => intros _; eexists; split; [reflexivity | done]
  | |- _ => idtac
  end.

(** One message: the tables and the object held stay as they are. *)
Lemma message_handler_keeps_ok lower env event self sh :
  tables_ok (store sh) → counters_ok self → holds_session (database sh) self →
  let r := message_handler lower env event (self, sh) in
  tables_ok (store (snd (fst r))) ∧ counters_ok (fst (fst r)) ∧
  db_session (fst (fst r)) = db_session self ∧
  database (snd (fst r)) = database sh ∧
  client (fst (fst r)) = client self ∧ running (fst (fst r)) = running self.
Proof.
  intros Hd Hst Hobj.
  destruct self as [? ? ? ? ? kws fm ? cl ? ? ? dbs [recv fwd ? ? ?]], sh as [db d snt lg].
  unfold holds_session in Hobj. simpl in *. run_m.
  destruct (should_forward lower kws (or_empty (text event))); [|split_and!; ok_leaf].
  simpl. destruct cl; [|split_and!; ok_leaf].
  simpl. destruct db.
  - destruct (Hobj eq_refl) as (o & -> & Ho).
    destruct o as [[? ? ? ? ? ? ? ? ? ? ? n ?]|? ? ?]; simpl in Ho; subst;
      destruct fm, (media event), (forward_raises env), (error_commit_raises env);
      simpl; split_and!; ok_leaf.
  - destruct fm, (media event), (forward_raises env); simpl; split_and!; ok_leaf.
Qed.

Lemma start_forwarding_keeps_ok env self sh :
  client self = None → db_session self = None → counters_ok self →
  tables_ok (store sh) →
  let r := start_forwarding env (self, sh) in
  tables_ok (store (snd (fst r))) ∧ database (snd (fst r)) = database sh ∧
  (snd r = inr Blocked →
   counters_ok (fst (fst r)) ∧ waiting (fst (fst r)) ∧
   holds_session (database sh) (fst (fst r))).
Proof.
  intros Hcl Hdbs Hst Hd.
  destruct self as [aid ah ph src dst ? ? ? cl auth ? ? dbs [recv fwd ? ? ?]],
    sh as [db d snt lg].
  simpl in *. subst cl dbs. run_m.
  destruct (int_truthy aid); simpl; [|by split_and!].
  destruct (opt_truthy ah); simpl; [|by split_and!].
  destruct (opt_truthy ph); simpl; [|by split_and!].
  destruct (client_start_raises env); simpl.
  { destruct db, (error_commit_raises env); simpl; split_and!; ok_leaf. }
  destruct (is_user_authorized env); simpl; [|by split_and!].
  destruct (opt_truthy src); simpl; [|by split_and!].
  destruct (opt_truthy dst); simpl; [|by split_and!].
  destruct (get_entity_raises env); simpl; [by split_and!|].
  destruct db; simpl; [|split_and!; ok_leaf; intros _; split_and!; ok_leaf].
  destruct (session_id_taken _ _), (commit_raises env); simpl;
    (split_and!; ok_leaf; intros _; split_and!; ok_leaf).
Qed.

Lemma start_forwarding_fresh_returns env self sh :
  client self = None → ∃ o, snd (start_forwarding env (self, sh)) = inr o.
Proof.
  intros Hcl.
  destruct self as [aid ah ph src dst ? ? ? cl auth ? ? dbs ?], sh as [db d snt lg].
  simpl in *. subst cl. run_m.
  destruct (int_truthy aid); simpl; [|by eexists].
  destruct (opt_truthy ah); simpl; [|by eexists].
  destruct (opt_truthy ph); simpl; [|by eexists].
  destruct (client_start_raises env); simpl.
  { destruct db, (error_commit_raises env); simpl; by eexists. }
  destruct (is_user_authorized env); simpl; [|by eexists].
  destruct (opt_truthy src); simpl; [|by eexists].
  destruct (opt_truthy dst); simpl; [|by eexists].
  destruct (get_entity_raises env); simpl; [by eexists|].
  destruct db; simpl; [|by eexists].
  destruct (session_id_taken _ _), (commit_raises env); simpl; by eexists.
Qed.

(** With the global [bot_instance] unset, [stop_bot] has no forwarder to
    stop. *)
Lemma stop_bot_unset env w :
  bot_instance w = None →
  stop_bot env w = (mkWorld None false (threads w) (shared w),
                    inr (Success (py "Bot stopped successfully"))).
Proof. intros Hb. unfold stop_bot. by rewrite Hb. Qed.

(** The state of the process after any calls: the global forwarder is
    unset, the [database] global is what it was at import, the tables and
    the forwarders of the waiting threads are in order. *)
Lemma run_invariant lower calls w :
  bot_instance w = None →
  tables_ok (store (shared w)) →
  Forall (thread_ok (database (shared w))) (threads w) →
  let w' := run lower calls w in
  bot_instance w' = None ∧
  database (shared w') = database (shared w) ∧
  tables_ok (store (shared w')) ∧
  Forall (thread_ok (database (shared w))) (threads w').
Proof.
  revert w. induction calls as [|call calls IH]; intros w Hb Hd Ht; [done|].
  simpl.
  assert (Hstep : bot_instance (step lower w call) = None ∧
                  database (shared (step lower w call)) = database (shared w) ∧
                  tables_ok (store (shared (step lower w call))) ∧
                  Forall (thread_ok (database (shared w)))
                    (threads (step lower w call))).
  { destruct call as [cfg env|env|i env event]; simpl.
    - unfold start_bot. destruct (bot_running w); [done|]. simpl.
      unfold run_bot_async, __init__.
      destruct (cfg_api_id cfg) as [e|aid]; [done|].
      match goal with
      | |- context [start_forwarding env (?f, shared w)] =>
          pose proof (start_forwarding_keeps_ok env f (shared w) eq_refl eq_refl
                        ltac:(unfold counters_ok; simpl; lia) Hd) as (H1 & H2 & H3);
          destruct (start_forwarding env (f, shared w)) as [[bot sh] [e|[|r]]]
      end; simpl in *; split_and!; try done.
      apply Forall_app. split; [done|]. constructor; [by apply H3 | constructor].
    - by rewrite stop_bot_unset.
    - unfold deliver. destruct (threads w !! i) as [bot|] eqn:Hi; [|done].
      destruct (client bot) as [[[] []]|] eqn:Hcl; try done.
      pose proof (Forall_lookup_1 _ _ _ _ Ht Hi) as (Hc & Hw & Hh).
      pose proof (message_handler_keeps_ok lower env event bot (shared w) Hd Hc Hh)
        as (H1 & H2 & H3 & H4 & H5 & H6).
      destruct (message_handler lower env event (bot, shared w)) as [[bot' sh] r].
      simpl in *. split_and!; try done.
      apply Forall_insert; [done|]. split_and!; [done| |].
      + destruct Hw as [Hw1 Hw2]. split; congruence.
      + unfold holds_session. by rewrite H3. }
  destruct Hstep as (S1 & S2 & S3 & S4).
  rewrite <- S2 in S4.
  destruct (IH (step lower w call) S1 S3 S4) as (I1 & I2 & I3 & I4).
  rewrite S2 in I2, I4. by split_and!.
Qed.

Lemma reachable_invariant lower database_ok calls :
  let w := run lower calls (initial_world database_ok) in
  bot_instance w = None ∧ database (shared w) = database_ok ∧
  tables_ok (store (shared w)) ∧
  Forall (thread_ok database_ok) (threads w).
Proof.
  apply (run_invariant lower calls (initial_world database_ok)); simpl;
    [done | by split_and! | constructor].
Qed.

(** ** The received count of a stored session *)

(** C10. Whatever the operator calls and whatever messages arrive, every
    stored session keeps [messages_received] at its default 0; each
    handled message adds one to the in-memory received counter only. *)
Theorem messages_received_column_stays_zero (lower : pystr → pystr) database_ok calls :
  Forall (λ r, BotSession.messages_received r = Some 0)
    (bot_sessions (store (shared (run lower calls (initial_world database_ok))))) ∧
  ∀ env event self sh,
    Stats.messages_received
      (stats (fst (fst (message_handler lower env event (self, sh)))))
    = Stats.messages_received (stats self) + 1.
Proof.
  split.
  - destruct (reachable_invariant lower database_ok calls) as (_ & _ & (_ & Hs & _) & _).
    eapply Forall_impl; [exact Hs|]. by intros r (_ & _ & Hr & _).
  - intros env event [? ? ? ? ? kws fm ? cl ? ? ? dbs ?] [db d snt lg]. run_m.
    destruct (should_forward lower kws (or_empty (text event))); [|done]. simpl.
    destruct cl; [|done]. simpl.
    destruct fm, (media event), (forward_raises env), db; destruct_session dbs;
      by destruct (commit_raises env), (error_commit_raises env).
Qed.

(** ** The single-run policy *)

Lemma start_bot_while_running cfg env w :
  bot_running w = true →
  start_bot cfg env w = (w, Failure (py "Bot is already running")).
Proof. intros Hrun. unfold start_bot. by rewrite Hrun. Qed.

(** The module global [bot_instance] is never assigned. *)
Lemma bot_instance_never_set lower calls w :
  bot_instance w = None → bot_instance (run lower calls w) = None.
Proof.
  revert w. induction calls as [|call calls IH]; intros w Hw; [done|].
  simpl. apply IH. destruct call as [cfg env|env|i env event]; simpl.
  - unfold start_bot. destruct (bot_running w); [done|]. simpl.
    unfold run_bot_async. destruct (__init__ cfg); [done|].
    by destruct (start_forwarding env _) as [[bot sh] [e|[|r]]].
  - by rewrite stop_bot_unset.
  - unfold deliver. destruct (threads w !! i) as [bot|]; [|done].
    destruct (client bot) as [[[] []]|]; try done.
    by destruct (message_handler lower env event _) as [[bot' sh] r].
Qed.

(** C2, at the failing input: start, stop, start. The stop finds the
    global [bot_instance] unset and finalizes nothing, the second start
    is accepted, and the statistics count two active sessions. *)
Theorem start_stop_start_leaves_two_active (lower : pystr → pystr) :
  let w := run lower
             [CallStart (sample_config (py "20250101_000000")) (calm 100);
              CallStop (calm 200);
              CallStart (sample_config (py "20250101_000500")) (calm 300)]
             (initial_world true) in
  bot_instance w = None ∧
  BotSession.is_active <$> bot_sessions (store (shared w)) = [true; true] ∧
  BotSession.stopped_at <$> bot_sessions (store (shared w)) = [None; None] ∧
  get_database_stats None 400 (shared w) = inr (mkDatabaseStats 0 2 2 0 0 0).
Proof. vm_compute. done. Qed.

(** ** What is recorded of a forward *)

(** The forwarder and the tables of the scenarios are those a start
    leaves. *)
Example sample_forwarder_started (flag : bool) :
  threads (run ascii_lower [CallStart (sale_config flag (py "20250101_000000")) (calm 100)]
             (initial_world true))
  = [sample_forwarder flag].
Proof. by destruct flag; vm_compute. Qed.

Example sample_shared_started :
  store (shared (run ascii_lower
                   [CallStart (sale_config false (py "20250101_000000")) (calm 100)]
                   (initial_world true)))
  = store sample_shared.
Proof. by vm_compute. Qed.

(** C3, at the failing input: a start and one message, with everything
    succeeding. The message is handed to [forward_messages] and counted
    in memory, but the write of its record reads the detached session
    object and fails: no forwarded-message row is stored, and the
    session row keeps its count of 0. On a forward that raises, the
    error row is written and nothing is counted. No run does better:
    whatever the calls, the forwarded-message table stays empty and
    every session row keeps [messages_forwarded] at 0. *)
Theorem forward_leaves_no_record (lower : pystr → pystr) database_ok calls :
  let started :=
    run ascii_lower [CallStart (sample_config (py "20250101_000000")) (calm 100)]
      (initial_world true) in
  let w1 := deliver ascii_lower 0 (calm 200) text_message started in
  let w2 := deliver ascii_lower 0 (forward_fails 200) text_message started in
  (sent (shared w1) = [7] ∧
   (λ bot, Stats.messages_forwarded (stats bot)) <$> threads w1 = [1] ∧
   forwarded_messages (store (shared w1)) = [] ∧
   BotSession.messages_forwarded <$> bot_sessions (store (shared w1)) = [Some 0] ∧
   log (shared w1) !! 3%nat
     = Some (LogError (py "Failed to log forwarded message: "
                       ++ str_exn (detached_error (calm 200))))) ∧
  (sent (shared w2) = [] ∧
   (λ bot, Stats.messages_forwarded (stats bot)) <$> threads w2 = [0] ∧
   ErrorLog.error_type <$> error_logs (store (shared w2)) = [py "forwarding"] ∧
   forwarded_messages (store (shared w2)) = []) ∧
  let w := run lower calls (initial_world database_ok) in
  forwarded_messages (store (shared w)) = [] ∧
  Forall (λ r, BotSession.messages_forwarded r = Some 0) (bot_sessions (store (shared w))).
Proof.
  split; [by vm_compute|]. split; [by vm_compute|].
  destruct (reachable_invariant lower database_ok calls) as (_ & _ & (Hm & Hs & _) & _).
  split; [exact Hm|].
  eapply Forall_impl; [exact Hs|]. by intros r (_ & _ & _ & Hr & _).
Qed.

(** C9, on every forwarder a run has started. A message with media that
    passes the filter while [forward_media] is off is handed to no
    forward call and is still counted in memory as forwarded; the write
    of its record is attempted and fails on the session object the
    forwarder holds, as for a real forward: no table changes. *)
Theorem media_suppressed_counted_not_recorded (lower : pystr → pystr) database_ok calls
    i bot env event mt :
  let w := run lower calls (initial_world database_ok) in
  threads w !! i = Some bot →
  should_forward lower (keywords bot) (or_empty (text event)) = true →
  forward_media bot = false →
  media event = Some mt →
  let w' := deliver lower i env event w in
  sent (shared w') = sent (shared w) ∧
  (λ b, Stats.messages_forwarded (stats b)) <$> threads w' !! i
    = Some (Stats.messages_forwarded (stats bot) + 1) ∧
  store (shared w') = store (shared w) ∧
  let forwarded_line :=
    LogInfo (py "Forwarded message from " ++ fmt (source_chat bot)
             ++ py " to " ++ fmt (destination_chat bot)) in
  if database_ok
  then ∃ e, log (shared w')
            = log (shared w)
              ++ [LogError (py "Failed to log forwarded message: " ++ str_exn e);
                  forwarded_line]
  else log (shared w') = log (shared w) ++ [forwarded_line].
Proof.
  intros w Hi Hshould Hfm Hmedia.
  destruct (reachable_invariant lower database_ok calls) as (_ & Hdb & _ & Ht).
  fold w in Hdb, Ht.
  pose proof (Forall_lookup_1 _ _ _ _ Ht Hi) as (_ & [Hcl _] & Hh).
  pose proof (lookup_lt_Some _ _ _ Hi) as Hlt.
  simpl. unfold deliver. rewrite Hi, Hcl.
  destruct (shared w) as [db d snt lg]. simpl in Hdb. subst db.
  destruct bot as [? ? ? ? ? kws fm ? cl ? ? ? dbs [recv fwd ? ? ?]].
  unfold holds_session in Hh. simpl in *. subst fm cl.
  run_m. rewrite Hshould, Hmedia. simpl.
  destruct database_ok; simpl.
  - destruct (Hh eq_refl) as (o & -> & Ho).
    destruct o as [[? ? ? ? ? ? ? ? ? ? ? n ?]|? ? ?]; simpl in Ho; subst; simpl;
      (split_and!; [done | by rewrite list_lookup_insert_eq by done | done |];
       eexists (Exception _); by rewrite <- app_assoc).
  - split_and!; [done | by rewrite list_lookup_insert_eq by done | done | done].
Qed.

Lemma media_suppressed_counted_not_recorded_witness :
  let w := run ascii_lower [CallStart (sale_config false (py "20250101_000000")) (calm 100)]
             (initial_world true) in
  threads w !! 0%nat = Some (sample_forwarder false) ∧
  should_forward ascii_lower (keywords (sample_forwarder false))
    (or_empty (text photo_message)) = true ∧
  sent (shared (deliver ascii_lower 0 (calm 200) photo_message w)) = sent (shared w) ∧
  store (shared (deliver ascii_lower 0 (calm 200) photo_message w)) = store (shared w).
Proof.
  split; [vm_compute; reflexivity|]. split; [vm_compute; reflexivity|].
  pose proof (media_suppressed_counted_not_recorded ascii_lower true
                [CallStart (sale_config false (py "20250101_000000")) (calm 100)]
                0 (sample_forwarder false) (calm 200) photo_message
                (py "MessageMediaPhoto")
                ltac:(vm_compute; reflexivity) ltac:(vm_compute; reflexivity)
                eq_refl eq_refl) as (Hsent & _ & Hstore & _).
  split; [exact Hsent | exact Hstore].
Defined.

(** ** Stopping *)

(** C5, at the failing input: a forwarder started with everything
    succeeding and then stopped, once or twice. The stop clears
    [running] and assigns the stop time to the detached session object
    (the second call overwrites the value of the first), but no table is
    written: the session row stays active and without stop time, and the
    statistics still count one active session. And [stop_forwarding] does
    raise: what [client.disconnect()] raises passes through. The first
    four facts hold of every forwarder. Through the routes the row fares
    no better: after a start and two stops it is still active. *)
Theorem stop_leaves_session_active env1 env2 self sh :
  let once := stop_forwarding env1 (self, sh) in
  let twice := stop_forwarding env2 (fst once) in
  running (fst (fst once)) = false ∧
  store (snd (fst once)) = store sh ∧
  store (snd (fst twice)) = store sh ∧
  snd once = match client self, disconnect_raises env1 with
             | Some _, Some e => inl e
             | _, _ => inr tt
             end ∧
  let started :=
    fst (start_forwarding (calm 100) (fresh_forwarder (py "20250101_000000"), empty_shared)) in
  let stopped1 := fst (stop_forwarding (calm 200) started) in
  let stopped2 := fst (stop_forwarding (calm 300) stopped1) in
  db_session (fst stopped1) = Some (SessionObject.Detached 1 (Some 200) (Some false)) ∧
  db_session (fst stopped2) = Some (SessionObject.Detached 1 (Some 300) (Some false)) ∧
  BotSession.is_active <$> bot_sessions (store (snd stopped2)) = [true] ∧
  BotSession.stopped_at <$> bot_sessions (store (snd stopped2)) = [None] ∧
  get_database_stats None 400 (snd stopped2) = inr (mkDatabaseStats 0 1 1 0 0 0) ∧
  snd (stop_forwarding (disconnect_fails 200) started)
    = inl (Exception (py "ConnectionError")) ∧
  let w := run ascii_lower
             [CallStart (sample_config (py "20250101_000000")) (calm 100);
              CallStop (calm 200); CallStop (calm 300)]
             (initial_world true) in
  bot_running w = false ∧
  BotSession.is_active <$> bot_sessions (store (shared w)) = [true] ∧
  BotSession.stopped_at <$> bot_sessions (store (shared w)) = [None].
Proof.
  pose proof (stop_forwarding_result env1 self sh) as (H1 & H2 & H3).
  pose proof (stop_forwarding_result env2
                (fst (fst (stop_forwarding env1 (self, sh))))
                (snd (fst (stop_forwarding env1 (self, sh))))) as (_ & _ & H4).
  rewrite <- surjective_pairing in H4. cbv zeta.
  split_and!; [exact H2 | exact H3 | by rewrite H4 | exact H1 | by vm_compute..].
Qed.

(** ** The control surface on every reachable state *)

(** X11. A start that is accepted and whose constructor does not raise
    leaves [bot_running] set whether or not the run could start, so the
    next start is refused with "Bot is already running" and changes
    nothing; when the constructor raises, the flag is cleared again and
    no thread is left waiting. *)
Theorem start_bot_then_refused cfg env cfg' env' w :
  bot_running w = false →
  let w1 := fst (start_bot cfg env w) in
  match cfg_api_id cfg with
  | inr _ =>
      bot_running w1 = true ∧
      start_bot cfg' env' w1 = (w1, Failure (py "Bot is already running"))
  | inl _ =>
      bot_running w1 = false ∧ threads w1 = threads w ∧
      store (shared w1) = store (shared w)
  end.
Proof.
  intros Hrun. unfold start_bot at 1. rewrite Hrun. simpl.
  unfold run_bot_async, __init__. destruct (cfg_api_id cfg) as [e|aid]; [done|].
  destruct (start_forwarding env _) as [[bot sh] [e|[|r]]] eqn:Hstart.
  - pose proof (start_forwarding_fresh_returns env
        (TelegramAutoForwarder.mk aid (cfg_api_hash cfg) (cfg_phone cfg)
           (cfg_source_chat cfg) (cfg_destination_chat cfg) (cfg_keywords cfg)
           (cfg_forward_media cfg) (cfg_delay_seconds cfg) None false false
           (py "bot_" ++ cfg_stamp cfg) None (Stats.mk 0 0 None None []))
        (shared w) eq_refl) as [o Ho].
    rewrite Hstart in Ho. done.
  - done.
  - done.
Qed.

Lemma start_bot_then_refused_witness :
  bot_running (initial_world true) = false ∧
  bot_running (fst (start_bot (sample_config (py "20250101_000000")) (forward_fails 100)
                      (initial_world true))) = true ∧
  start_bot (sample_config (py "20250101_000500")) (calm 200)
    (fst (start_bot (sample_config (py "20250101_000000")) (forward_fails 100)
            (initial_world true)))
  = (fst (start_bot (sample_config (py "20250101_000000")) (forward_fails 100)
            (initial_world true)),
     Failure (py "Bot is already running")).
Proof.
  split; [reflexivity|].
  apply (start_bot_then_refused (sample_config (py "20250101_000000")) (forward_fails 100)
           (sample_config (py "20250101_000500")) (calm 200) (initial_world true) eq_refl).
Defined.

(** X12. Whatever was started, stopped or received, [/api/status]
    answers "Bot not initialized": the statistics of a running forwarder
    are never reported. *)
Theorem status_never_initialized (lower : pystr → pystr) database_ok calls :
  status (run lower calls (initial_world database_ok)) = BotNotInitialized.
Proof.
  unfold status.
  by destruct (reachable_invariant lower database_ok calls) as (-> & _).
Qed.

(** X13. On every reachable state [stop_bot] answers success and only
    clears [bot_running]: the tables, the log and the waiting forwarders
    are left as they are, every forwarder started earlier is still
    connected, subscribed and marked running, and [/api/health] then
    reports that no bot is running. *)
Theorem stop_bot_only_clears_flag (lower : pystr → pystr) database_ok calls env now :
  let w := run lower calls (initial_world database_ok) in
  stop_bot env w
    = (mkWorld None false (threads w) (shared w),
       inr (Success (py "Bot stopped successfully"))) ∧
  Forall waiting (threads (fst (stop_bot env w))) ∧
  health now (fst (stop_bot env w)) = (py "healthy", now, false).
Proof.
  intros w. destruct (reachable_invariant lower database_ok calls) as (Hb & _ & _ & Ht).
  fold w in Hb, Ht. rewrite (stop_bot_unset env w Hb). split_and!; [done| |done].
  simpl. eapply Forall_impl; [exact Ht|]. by intros bot (_ & Hw & _).
Qed.

(** X14. For every forwarder of a reachable state the in-memory counters
    are ordered: the forwarded count is not negative and never exceeds
    the received count. *)
Theorem counters_ordered (lower : pystr → pystr) database_ok calls :
  Forall (λ bot,
            0 ≤ Stats.messages_forwarded (stats bot)
              ≤ Stats.messages_received (stats bot))
    (threads (run lower calls (initial_world database_ok))).
Proof.
  destruct (reachable_invariant lower database_ok calls) as (_ & _ & _ & Ht).
  eapply Forall_impl; [exact Ht|]. by intros bot (Hst & _).
Qed.

Lemma count_le {A} (p : A → bool) (l : list A) : (count p l ≤ length l)%nat.
Proof.
  unfold count. induction l as [|a l IH]; simpl; [lia|]. destruct (p a); simpl; lia.
Qed.

Lemma count_all {A} (p : A → bool) (l : list A) :
  Forall (λ a, p a = true) l → count p l = length l.
Proof.
  unfold count. induction 1 as [|a l Ha _ IH]; [done|]. simpl. rewrite Ha. simpl. by f_equal.
Qed.

(** X15. On every reachable state the statistics endpoint answers the
    "Database not available" error exactly when the database is missing,
    and otherwise counts that fit together: every error is unresolved
    (nothing ever sets [resolved]), the active sessions are among the
    sessions, and the messages of the last 24 hours among the messages. *)
Theorem database_stats_consistent (lower : pystr → pystr) database_ok calls utcnow :
  match get_database_stats None utcnow
          (shared (run lower calls (initial_world database_ok))) with
  | inr st =>
      database_ok = true ∧
      unresolved_errors st = total_errors st ∧
      (active_sessions st ≤ total_sessions st)%nat ∧
      (messages_last_24h st ≤ total_messages_forwarded st)%nat
  | inl error => database_ok = false ∧ error = py "Database not available"
  end.
Proof.
  destruct (reachable_invariant lower database_ok calls) as (_ & Hdb & (_ & _ & He) & _).
  unfold get_database_stats. rewrite Hdb. destruct database_ok; [|done]. simpl.
  split_and!; [done | | apply count_le | apply count_le].
  apply count_all. eapply Forall_impl; [exact He|]. by intros e ->.
Qed.

(** ** The sessions and errors endpoints *)

#[global] Instance later_first_trans {A} (key : A → Z) : Transitive (later_first key).
Proof. unfold later_first. intros a b c Hab Hbc. lia. Qed.

#[global] Instance later_first_total {A} (key : A → Z) : Total (later_first key).
Proof. unfold later_first. intros a b. lia. Qed.

(** The first [n] rows of a table ordered on a timestamp, newest first. *)
Lemma newest_first_split {A} (key : A → Z) (n : nat) (l : list A) :
  let recent := take n (merge_sort (later_first key) l) in
  let older := drop n (merge_sort (later_first key) l) in
  recent ++ older ≡ₚ l ∧
  length recent = (n `min` length l)%nat ∧
  StronglySorted (later_first key) recent ∧
  Forall (λ a, Forall (λ b, key b ≤ key a) older) recent.
Proof.
  intros recent older.
  pose proof (StronglySorted_merge_sort (later_first key) l) as Hsorted.
  pose proof (merge_sort_Permutation (later_first key) l) as Hperm.
  rewrite <- (take_drop n (merge_sort (later_first key) l)) in Hsorted.
  fold recent older in Hsorted. split_and!.
  - subst recent older. by rewrite take_drop.
  - subst recent. by rewrite length_take, Hperm.
  - by apply StronglySorted_app_1_l in Hsorted.
  - apply Forall_forall. intros a Ha. apply Forall_forall. intros b Hb.
    by apply (StronglySorted_app_1_elem_of _ _ _ a b) in Hsorted.
Qed.

Lemma map_raising_ok (l : list BotSession.t) :
  Forall (λ r, is_Some (BotSession.last_activity r)) l →
  map_raising session_to_dict l = inr l.
Proof.
  induction 1 as [|r l [t Hr] _ IH]; [done|]. cbn [map_raising].
  unfold session_to_dict at 1. by rewrite Hr, IH.
Qed.

(** X16. On every reachable state the sessions endpoint never fails on a
    row: with the database available it answers the 20 most recently
    started sessions at most, newest first, and as ['total'] the number
    of sessions it answers; without the database it answers the
    "Database not available" error. *)
Theorem get_bot_sessions_recent (lower : pystr → pystr) database_ok calls :
  let sh := shared (run lower calls (initial_world database_ok)) in
  ∃ recent older : list BotSession.t,
    get_bot_sessions None sh
      = (if database_ok then inr (recent, length recent)
         else inl (py "Database not available")) ∧
    recent ++ older ≡ₚ bot_sessions (store sh) ∧
    length recent = (20 `min` length (bot_sessions (store sh)))%nat ∧
    StronglySorted (later_first BotSession.started_at) recent ∧
    Forall (λ a, Forall (λ b, BotSession.started_at b ≤ BotSession.started_at a) older)
      recent.
Proof.
  intros sh.
  destruct (reachable_invariant lower database_ok calls) as (_ & Hdb & (_ & Hs & _) & _).
  fold sh in Hdb, Hs.
  destruct (newest_first_split BotSession.started_at 20 (bot_sessions (store sh)))
    as (Hperm & Hlen & Hsorted & Hcross).
  eexists _, _. split_and!; [|exact Hperm|exact Hlen|exact Hsorted|exact Hcross].
  unfold get_bot_sessions. rewrite Hdb. destruct database_ok; [|done]. simpl.
  rewrite map_raising_ok; [done|].
  apply Forall_forall. intros r Hr. rewrite Forall_forall in Hs.
  refine (proj2 (proj2 (proj2 (proj2 (Hs r _))))).
  apply elem_of_take in Hr as (i & Hi & _).
  rewrite <- (merge_sort_Permutation (later_first BotSession.started_at)).
  by eapply list_elem_of_lookup_2.
Qed.

(** X17. The errors endpoint answers the 30 most recent errors at most,
    newest first, without their stack traces, and as ['total'] the number
    of errors it answers; without the database it answers the "Database
    not available" error. *)
Theorem get_error_logs_recent (sh : Shared) :
  ∃ recent older : list ErrorLog.t,
    get_error_logs None sh
      = (if database sh then inr (error_to_dict <$> recent, length recent)
         else inl (py "Database not available")) ∧
    recent ++ older ≡ₚ error_logs (store sh) ∧
    length recent = (30 `min` length (error_logs (store sh)))%nat ∧
    StronglySorted (later_first ErrorLog.occurred_at) recent ∧
    Forall (λ a, Forall (λ b, ErrorLog.occurred_at b ≤ ErrorLog.occurred_at a) older)
      recent ∧
    Forall (λ d, ErrorLog.stack_trace d = None) (error_to_dict <$> recent) ∧
    ErrorLog.error_message <$> (error_to_dict <$> recent) = ErrorLog.error_message <$> recent.
Proof.
  destruct (newest_first_split ErrorLog.occurred_at 30 (error_logs (store sh)))
    as (Hperm & Hlen & Hsorted & Hcross).
  eexists _, _. split_and!; [|exact Hperm|exact Hlen|exact Hsorted|exact Hcross| |].
  - unfold get_error_logs. by destruct (database sh).
  - by apply Forall_fmap, Forall_true.
  - rewrite <- list_fmap_compose. by apply list_fmap_ext.
Qed.

(** ** Starting from the environment *)

Lemma forallb_filter_nil {A} (f : A → bool) (l : list A) :
  forallb f l = true ↔ List.filter (λ a, negb (f a)) l = [].
Proof.
  induction l as [|a l IH]; [done|]. simpl. destruct (f a); simpl; [exact IH | done].
Qed.

Lemma List_filter_decide {A} (f : A → bool) (P : A → Prop) `{∀ x, Decision (P x)}
    (l : list A) :
  (∀ x, f x = true ↔ P x) → List.filter f l = filter P l.
Proof.
  intros Hf. induction l as [|a l IH]; [done|]. rewrite filter_cons. simpl.
  destruct (f a) eqn:Ha.
  - rewrite decide_True by (by apply Hf). by rewrite IH.
  - rewrite decide_False by (rewrite <- Hf; congruence). exact IH.
Qed.

(** X18. At import [auto_start_bot] raises exactly when none of the five
    required variables is missing, a variable set to the empty string
    counting as missing: it has then started the bot and fails at the
    reply of [start_bot], so that the module does not load. With a
    variable missing it returns, starts nothing and logs the missing
    variables, which are the required ones that are unset or empty, in
    the order of [required_vars]. *)
Theorem auto_start_bot_outcome (lower : pystr → pystr) (isspace isdigit : codepoint → bool)
    (int : pystr → exn + Z) (environ : Environ) stamp env w :
  let r := auto_start_bot lower isspace isdigit int environ stamp env w in
  missing_vars environ
    = filter (λ var, environ !! var = None ∨ environ !! var = Some []) required_vars ∧
  ((∃ e, snd r = inl e) ↔ missing_vars environ = []) ∧
  (snd r = inr tt ↔ missing_vars environ ≠ []) ∧
  match snd r with
  | inl _ =>
      fst r = fst (start_bot_environ lower isspace isdigit int environ stamp env
                     (mkWorld (bot_instance w) (bot_running w) (threads w)
                        (with_log (log (shared w) ++
                           [LogInfo (py "Auto-starting bot with environment configuration...")])
                           (shared w))))
  | inr _ =>
      fst r = mkWorld (bot_instance w) (bot_running w) (threads w)
                (with_log (log (shared w) ++
                   [LogInfo (py "Auto-start disabled. Missing environment variables: "
                             ++ repr_list (missing_vars environ))])
                   (shared w))
  end.
Proof.
  intros r. split.
  - unfold missing_vars, required_vars.
    assert (Hvar : ∀ var : pystr,
      negb (opt_truthy (environ !! var)) = true
      ↔ environ !! var = None ∨ environ !! var = Some []).
    { intros var. destruct (environ !! var) as [[|c s]|]; simpl;
        (split; [intros ?; first [by left | by right | done] | by intros [?|?]]). }
    by apply List_filter_decide.
  - subst r. unfold auto_start_bot.
    destruct (forallb (λ var, opt_truthy (environ !! var)) required_vars) eqn:Hall; simpl.
    + apply forallb_filter_nil in Hall. fold (missing_vars environ) in Hall.
      rewrite Hall. split_and!; [split; [done | by eexists] | done | done].
    + assert (Hm : missing_vars environ ≠ []).
      { intros Hm. apply forallb_filter_nil in Hm. congruence. }
      split_and!; [|done..]. split; [by intros [e He] | done].
Qed.

Example parse_keywords_sample :
  _parse_keywords ascii_isspace (py " sale , ,offer") = [py "sale"; py "offer"].
Proof. vm_compute. reflexivity. Qed.

Example auto_start_sample :
  let r := auto_start_bot ascii_lower ascii_isspace ascii_isdigit ascii_int
             sample_environ (py "20250101_000000") (calm 100) (initial_world true) in
  snd r = inl RuntimeError ∧
  bot_running (fst r) = true ∧ keywords <$> threads (fst r) = [[py "sale"; py "offer"]].
Proof. vm_compute. done. Qed.

Example auto_start_missing_sample :
  let r := auto_start_bot ascii_lower ascii_isspace ascii_isdigit ascii_int
             (delete (py "SOURCE_CHAT") sample_environ) (py "20250101_000000")
             (calm 100) (initial_world true) in
  snd r = inr tt ∧ bot_running (fst r) = false ∧ threads (fst r) = [] ∧
  missing_vars (delete (py "SOURCE_CHAT") sample_environ) = [py "SOURCE_CHAT"].
Proof. vm_compute. done. Qed.

(** ** The setup script *)

(** X19. The setup returns [True] exactly when the three answers are
    not blank, the API id is a number, the client starts and is
    authorized, and the account and the file can be read and written. It
    writes [.env] in full exactly when it returns [True], with the
    stripped answers, and a client that was created is always
    disconnected. *)
Theorem setup_authentication_outcome (isspace : codepoint → bool) (int : pystr → exn + Z)
    env line1 line2 line3 :
  let o := setup_authentication isspace int env line1 line2 line3 in
  returned o
    = str_truthy (strip isspace line1) && str_truthy (strip isspace line2)
      && str_truthy (strip isspace line3)
      && match int (strip isspace line1) with inr _ => true | inl _ => false end
      && negb (obj_truthy (setup_start_raises env)) && setup_is_authorized env
      && negb (obj_truthy (setup_get_me_raises env))
      && negb (obj_truthy (setup_write_raises env)) ∧
  obj_truthy (env_file o) = returned o ∧
  client_disconnected o = client_created o ∧
  match env_file o with
  | Some (api_id, api_hash, phone) =>
      int (strip isspace line1) = inr api_id ∧
      api_hash = strip isspace line2 ∧ phone = strip isspace line3
  | None => True
  end.
Proof.
  unfold setup_authentication.
  destruct (str_truthy (strip isspace line1)), (str_truthy (strip isspace line2)),
    (str_truthy (strip isspace line3)); simpl; try done.
  destruct (int (strip isspace line1)) as [e|n]; simpl; [done|].
  by destruct (setup_start_raises env), (setup_is_authorized env),
    (setup_get_me_raises env), (setup_write_raises env).
Qed.

